(** * melnor_bluetooth.device: valves and devices of a Melnor Bluetooth timer

    A shallow embedding of [src/melnor_bluetooth/device.py].

    Python objects are mutable and a raised exception keeps every assignment
    made before it, so methods are computations in a state-and-exception
    monad whose state survives a [raise].  Integers are Python's unbounded
    [int] (here [Z]); [bytes] are lists of [byte]. *)

From Stdlib Require Import ZArith List String Ascii Bool Lia.
From Stdlib.Strings Require Import Byte.
Import ListNotations.
Open Scope Z_scope.

(** ** Exceptions and the method monad *)

(** The exception classes the module can meet.  [BleakError] stands for the
    class and its subclasses, which is what [except BleakError] catches. *)
Inductive exn : Type :=
| BleakError
| StructError          (* struct.error *)
| TypeError
| ValueError
| UnicodeDecodeError
| AttributeError
| IndexError
| OverflowError
| OtherException (name : string).

Definition is_BleakError (e : exn) : bool :=
  match e with BleakError => true | _ => false end.

Inductive result (A : Type) : Type :=
| Ok (a : A)
| Raise (e : exn).
Arguments Ok {A} a.
Arguments Raise {A} e.

(** A method on an object of state [S]: it returns or raises, and in both
    cases leaves a state behind. *)
Definition M (S A : Type) : Type := S -> result A * S.

Definition ret {S A} (a : A) : M S A := fun s => (Ok a, s).
Definition raise {S A} (e : exn) : M S A := fun s => (Raise e, s).
Definition bind {S A B} (m : M S A) (k : A -> M S B) : M S B :=
  fun s => match m s with
           | (Ok a, s') => k a s'
           | (Raise e, s') => (Raise e, s')
           end.
Definition get {S} : M S S := fun s => (Ok s, s).
Definition modify {S} (f : S -> S) : M S unit := fun s => (Ok tt, f s).
(** A call that cannot touch the state (a library function). *)
Definition call {S A} (r : result A) : M S A := fun s => (r, s).
(** [try: body except BleakError as error: handler error]. *)
Definition try_except_BleakError {S A} (body : M S A) (handler : exn -> M S A)
  : M S A :=
  fun s => match body s with
           | (Raise e, s') => if is_BleakError e then handler e s'
                              else (Raise e, s')
           | r => r
           end.

Declare Scope py_scope.
Delimit Scope py_scope with py.
Notation "x <- m ;; k" := (bind m (fun x => k))
  (at level 61, m at next level, right associativity) : py_scope.
Notation "m ;; k" := (bind m (fun _ => k))
  (at level 61, right associativity) : py_scope.
Open Scope py_scope.

(** What a Python variable documented as [bytes] may really hold in this
    module: a bytes object, or an exception instance (as
    [asyncio.gather(..., return_exceptions=True)] hands them back). *)
Inductive pyobj : Type :=
| PyBytes (b : list byte)
| PyException (e : exn).

(** ** The [struct] module, for the formats the source uses *)

Module Struct.

Definition byte_val (b : byte) : Z := Z.of_N (Byte.to_N b).

Definition byte_of_Z (z : Z) : byte :=
  match Byte.of_N (Z.to_N (z mod 256)) with
  | Some b => b
  | None => x00
  end.

(** Big-endian unsigned integer held in a run of bytes. *)
Definition be_uint (bs : list byte) : Z :=
  fold_left (fun acc b => acc * 256 + byte_val b) bs 0.

(** The [n] low bytes of [z], most significant first. *)
Fixpoint be_bytes (n : nat) (z : Z) : list byte :=
  match n with
  | O => []
  | S n' => be_bytes n' (z / 256) ++ [byte_of_Z z]
  end.

(** [Py_ssize_t], on a 64-bit build: the integers from [-2^63] to
    [2^63 - 1]. *)
Definition fits_ssize_t (z : Z) : bool :=
  (- 2 ^ 63 <=? z) && (z <? 2 ^ 63).

(** [Struct.unpack_from] up to the point where fields are read: the
    [size] bytes at [offset].  The arguments are converted first: an
    argument without the buffer protocol is [TypeError], an offset that does
    not fit [Py_ssize_t] is [OverflowError].  Then a negative offset counts
    from the end of the buffer, and every way of running out of the buffer
    is [struct.error].  A bytes object has fewer than [2^63] bytes; a list
    longer than that stands for no buffer, and is read as lists are. *)
Definition unpack_from_raw (size : Z) (buffer : pyobj) (offset : Z)
  : result (list byte) :=
  match buffer with
  | PyException _ => Raise TypeError
  | PyBytes buf =>
      let len := Z.of_nat (List.length buf) in
      let at_ (off : Z) :=
        if len - off <? size then Raise StructError
        else Ok (firstn (Z.to_nat size) (skipn (Z.to_nat off) buf)) in
      if negb (fits_ssize_t offset) && fits_ssize_t len then
        Raise OverflowError
      else if offset <? 0 then
        if 0 <? offset + size then Raise StructError
        else if offset + len <? 0 then Raise StructError
        else at_ (offset + len)
      else at_ offset
  end.

(** [struct.unpack_from(">?", buffer, offset)[0]]: any non-zero byte is
    [True]. *)
Definition unpack_from_bool (buffer : pyobj) (offset : Z) : result bool :=
  match unpack_from_raw 1 buffer offset with
  | Ok bs => Ok (negb (be_uint bs =? 0))
  | Raise e => Raise e
  end.

(** [struct.unpack_from(">H", buffer, offset)[0]]. *)
Definition unpack_from_H (buffer : pyobj) (offset : Z) : result Z :=
  match unpack_from_raw 2 buffer offset with
  | Ok bs => Ok (be_uint bs)
  | Raise e => Raise e
  end.

(** [struct.unpack_from(">I", buffer, offset)[0]]. *)
Definition unpack_from_I (buffer : pyobj) (offset : Z) : result Z :=
  match unpack_from_raw 4 buffer offset with
  | Ok bs => Ok (be_uint bs)
  | Raise e => Raise e
  end.

(** One unsigned field of [n] bytes: the value must fit. *)
Definition pack_uint (n : nat) (z : Z) : result (list byte) :=
  if (0 <=? z) && (z <? 256 ^ Z.of_nat n) then Ok (be_bytes n z)
  else Raise StructError.

Definition pack_bool (b : bool) : list byte := [if b then x01 else x00].

(** [struct.pack(">?HH", b, h1, h2)]. *)
Definition pack_bool_H_H (b : bool) (h1 h2 : Z) : result (list byte) :=
  match pack_uint 2 h1, pack_uint 2 h2 with
  | Ok b1, Ok b2 => Ok (pack_bool b ++ b1 ++ b2)
  | Raise e, _ => Raise e
  | _, Raise e => Raise e
  end.

(** [struct.pack(">I", n)]. *)
Definition pack_I (n : Z) : result (list byte) := pack_uint 4 n.

End Struct.

(** ** class Valve *)

Record Valve : Type := mkValve {
  _id : Z;
  _is_watering : bool;
  _manual_minutes : Z;
  _end_time : Z
}.

Definition set_is_watering (value : bool) (self : Valve) : Valve :=
  {| _id := _id self; _is_watering := value;
     _manual_minutes := _manual_minutes self; _end_time := _end_time self |}.

Definition set_manual_minutes (value : Z) (self : Valve) : Valve :=
  {| _id := _id self; _is_watering := _is_watering self;
     _manual_minutes := value; _end_time := _end_time self |}.

Definition set_end_time (value : Z) (self : Valve) : Valve :=
  {| _id := _id self; _is_watering := _is_watering self;
     _manual_minutes := _manual_minutes self; _end_time := value |}.

(** [Valve.__init__] (the back reference to the device is never read). *)
Definition Valve_init (identifier : Z) : Valve :=
  {| _id := identifier; _is_watering := false;
     _manual_minutes := 20; _end_time := 0 |}.

(** The properties of a valve. *)
Definition is_watering (self : Valve) : bool := _is_watering self.
Definition manual_watering_minutes (self : Valve) : Z := _manual_minutes self.
Definition watering_end_time (self : Valve) : Z := _end_time self.

Section ValveMethods.

(** [constants.py] is not part of the sources at hand: the characteristic
    identifiers are strings this development does not fix. *)
Variables VALVE_MANUAL_SETTINGS_UUID VALVE_MANUAL_STATES_UUID : string.

(** What [parser.date.time_shift()] answers when [update_state] calls it. *)
Variable time_shift : Z.

Definition update_state (raw_bytes : pyobj) (uuid : string) : M Valve unit :=
  self <- get ;;
  let offset := _id self * 5 in
  if String.eqb uuid VALVE_MANUAL_SETTINGS_UUID then
    w <- call (Struct.unpack_from_bool raw_bytes offset) ;;
    modify (set_is_watering w) ;;
    m <- call (Struct.unpack_from_H raw_bytes (offset + 1)) ;;
    modify (set_manual_minutes m)
  else if String.eqb uuid VALVE_MANUAL_STATES_UUID then
    parsed_time <- call (Struct.unpack_from_I raw_bytes (offset + 1)) ;;
    modify (set_end_time parsed_time) ;;
    modify (set_end_time
              (if negb (parsed_time =? 0) then parsed_time - time_shift
               else 0))
  else ret tt.

Definition _manual_setting_bytes (self : Valve) : result (list byte) :=
  Struct.pack_bool_H_H (_is_watering self)
                       (_manual_minutes self) (_manual_minutes self).

End ValveMethods.

(** [update_state] with the settings identifier on a fresh valve of index
    [i], then [_manual_setting_bytes] on what it left. *)
Definition decode_then_encode (SETTINGS STATES : string) (time_shift i : Z)
    (raw_bytes : pyobj) : result (list byte) :=
  match update_state SETTINGS STATES time_shift raw_bytes SETTINGS
                     (Valve_init i) with
  | (Ok _, v) => _manual_setting_bytes v
  | (Raise e, _) => Raise e
  end.

(** ** Python strings, for [_read_model] *)

(** A [str] is a sequence of code points. *)
Definition pystr : Type := list N.

Definition str_of_string (s : string) : pystr :=
  map N_of_ascii (list_ascii_of_string s).

Module Codec.

Definition continuation (b : byte) : bool :=
  (128 <=? Byte.to_N b)%N && (Byte.to_N b <=? 191)%N.

Definition between (lo hi : N) (b : byte) : bool :=
  (lo <=? Byte.to_N b)%N && (Byte.to_N b <=? hi)%N.

Definition low6 (b : byte) : N := (Byte.to_N b - 128)%N.

Definition prepend (c : N) (r : result pystr) : result pystr :=
  match r with
  | Ok s => Ok (c :: s)
  | Raise e => Raise e
  end.

(** [bytes.decode("utf-8")], strict: the well-formed byte sequences of the
    Unicode standard, anything else is [UnicodeDecodeError]. *)
Fixpoint decode_utf8 (bs : list byte) : result pystr :=
  match bs with
  | [] => Ok []
  | b0 :: t0 =>
      let v0 := Byte.to_N b0 in
      if (v0 <? 128)%N then prepend v0 (decode_utf8 t0)
      else if between 194 223 b0 then
        match t0 with
        | b1 :: t1 =>
            if continuation b1
            then prepend ((v0 - 192) * 64 + low6 b1)%N (decode_utf8 t1)
            else Raise UnicodeDecodeError
        | _ => Raise UnicodeDecodeError
        end
      else if between 224 239 b0 then
        match t0 with
        | b1 :: b2 :: t2 =>
            if between (if (v0 =? 224)%N then 160 else 128)
                       (if (v0 =? 237)%N then 159 else 191) b1
               && continuation b2
            then prepend ((v0 - 224) * 4096 + low6 b1 * 64 + low6 b2)%N
                         (decode_utf8 t2)
            else Raise UnicodeDecodeError
        | _ => Raise UnicodeDecodeError
        end
      else if between 240 244 b0 then
        match t0 with
        | b1 :: b2 :: b3 :: t3 =>
            if between (if (v0 =? 240)%N then 144 else 128)
                       (if (v0 =? 244)%N then 143 else 191) b1
               && continuation b2 && continuation b3
            then prepend ((v0 - 240) * 262144 + low6 b1 * 4096
                          + low6 b2 * 64 + low6 b3)%N
                         (decode_utf8 t3)
            else Raise UnicodeDecodeError
        | _ => Raise UnicodeDecodeError
        end
      else Raise UnicodeDecodeError
  end.

Section Int.

(** The decimal digit value the Unicode database gives a code point beyond
    ASCII, if it is a decimal digit. *)
Variable unicode_decimal : N -> option Z.

(** [int(s)] for a string [s] of at most one character, given as that
    character if there is one: all that [string[6:7]] can be.  A lone sign,
    space or letter is as invalid as the empty string. *)
Definition int_of_slice (s : option N) : result Z :=
  match s with
  | None => Raise ValueError
  | Some c =>
      if (48 <=? c)%N && (c <=? 57)%N then Ok (Z.of_N (c - 48))
      else if (c <? 128)%N then Raise ValueError
      else match unicode_decimal c with
           | Some d => Ok d
           | None => Raise ValueError
           end
  end.

End Int.

End Codec.

(** ** Python lists *)

(** [l[i]] for [i >= 0]. *)
Definition py_nth {A} (l : list A) (i : nat) : result A :=
  match nth_error l i with
  | Some x => Ok x
  | None => Raise IndexError
  end.

(** [l.index(x)] on a list of strings. *)
Fixpoint list_index (l : list string) (x : string) : result nat :=
  match l with
  | [] => Raise ValueError
  | y :: l' => if String.eqb y x then Ok O
               else match list_index l' x with
                    | Ok n => Ok (S n)
                    | Raise e => Raise e
                    end
  end.

(** [l[i] = x] in place, for [i] in range. *)
Fixpoint list_set {A} (l : list A) (i : nat) (x : A) : list A :=
  match l, i with
  | [], _ => []
  | _ :: l', O => x :: l'
  | y :: l', S i' => y :: list_set l' i' x
  end.

Fixpoint for_each {S A} (xs : list A) (body : A -> M S unit) : M S unit :=
  match xs with
  | [] => ret tt
  | x :: xs' => body x ;; for_each xs' body
  end.

(** ** What lies outside the module *)

(** A [BleakClient] object, by name. *)
Definition BleakClient : Type := nat.

Record BLEDevice : Type := mkBLEDevice {
  address : string;
  rssi : Z
}.

(** The answer to an awaited call: what it returned or raised, whether the
    transport ran the device's [disconnected_callback] while the caller was
    suspended, and the outside state afterwards. *)
Record awaited (A T : Type) : Type := mkAwaited {
  answer : result A;
  link_dropped : bool;
  after : T
}.
Arguments mkAwaited {A T}.
Arguments answer {A T}.
Arguments link_dropped {A T}.
Arguments after {A T}.

(** The BLE stack ([bleak], [bleak_retry_connector]) and the clock behind
    [parser.date], as a state machine of unknown state [T]. *)
Class Outside (T : Type) : Type := {
  establish_connection : BLEDevice -> string -> Z -> T -> awaited BleakClient T;
  read_gatt_char : BleakClient -> string -> T -> awaited (list byte) T;
  write_gatt_char : BleakClient -> Z -> list byte -> bool -> T -> awaited unit T;
  client_disconnect : BleakClient -> T -> awaited unit T;
  (** [client.services.get_characteristic(uuid)], as the handle found. *)
  get_characteristic : BleakClient -> string -> T -> option Z;
  date_time_shift : T -> Z;
  date_get_timestamp : T -> Z
}.

(** The names [device.py] imports from modules that are not at hand. *)
Record Imports : Type := mkImports {
  BATTERY_UUID : string;
  MANUFACTURER_UUID : string;
  UPDATED_AT_UUID : string;
  VALVE_MANUAL_SETTINGS_UUID : string;
  VALVE_MANUAL_STATES_UUID : string;
  parse_battery_value : pyobj -> result Z;
  unicode_decimal : N -> option Z
}.

(** Calls that reach the transport, in the order they were made. *)
Inductive io : Type :=
| io_establish (max_attempts : Z)
| io_read (c : BleakClient) (uuid : string)
| io_write (c : BleakClient) (handle : Z) (data : list byte) (response : bool)
| io_disconnect (c : BleakClient).

(** ** class Device *)

(** An attribute that is only annotated in the class body does not exist
    until it is assigned: [None] here, [AttributeError] when read. *)
Record Device : Type := mkDevice {
  _battery : Z;
  _ble_device : BLEDevice;
  _connection : option BleakClient;
  _is_connected : bool;
  _mac : string;
  _model : option pystr;
  _valve_count : option Z;
  _valves : list Valve
}.

Definition set_battery (x : Z) (d : Device) : Device :=
  mkDevice x (_ble_device d) (_connection d) (_is_connected d) (_mac d)
           (_model d) (_valve_count d) (_valves d).
Definition set_ble_device (x : BLEDevice) (d : Device) : Device :=
  mkDevice (_battery d) x (_connection d) (_is_connected d) (_mac d)
           (_model d) (_valve_count d) (_valves d).
Definition set_connection (x : BleakClient) (d : Device) : Device :=
  mkDevice (_battery d) (_ble_device d) (Some x) (_is_connected d) (_mac d)
           (_model d) (_valve_count d) (_valves d).
Definition set_is_connected (x : bool) (d : Device) : Device :=
  mkDevice (_battery d) (_ble_device d) (_connection d) x (_mac d)
           (_model d) (_valve_count d) (_valves d).
Definition set_model (x : pystr) (d : Device) : Device :=
  mkDevice (_battery d) (_ble_device d) (_connection d) (_is_connected d)
           (_mac d) (Some x) (_valve_count d) (_valves d).
Definition set_valve_count (x : Z) (d : Device) : Device :=
  mkDevice (_battery d) (_ble_device d) (_connection d) (_is_connected d)
           (_mac d) (_model d) (Some x) (_valves d).
Definition set_valves (x : list Valve) (d : Device) : Device :=
  mkDevice (_battery d) (_ble_device d) (_connection d) (_is_connected d)
           (_mac d) (_model d) (_valve_count d) x.

(** [Device.__init__]: four valves whatever the hardware has. *)
Definition Device_init (ble_device : BLEDevice) : Device :=
  {| _battery := 0;
     _ble_device := ble_device;
     _connection := None;
     _is_connected := false;
     _mac := address ble_device;
     _model := None;
     _valve_count := None;
     _valves := map Valve_init [0; 1; 2; 3] |}.

Definition disconnected_callback (self : Device) : Device :=
  set_is_connected false self.

Definition attr {A} (x : option A) : result A :=
  match x with
  | Some a => Ok a
  | None => Raise AttributeError
  end.

(** *** Zone accessors *)

Definition zone1 (self : Device) : result (option Valve) :=
  match py_nth (_valves self) 0 with
  | Ok v => Ok (Some v)
  | Raise e => Raise e
  end.

Definition zone_if (self : Device) (bound : Z) (slot : nat)
  : result (option Valve) :=
  match attr (_valve_count self) with
  | Raise e => Raise e
  | Ok n =>
      if n >? bound then
        match py_nth (_valves self) slot with
        | Ok v => Ok (Some v)
        | Raise e => Raise e
        end
      else Ok None
  end.

Definition zone2 (self : Device) : result (option Valve) := zone_if self 1 1.
Definition zone3 (self : Device) : result (option Valve) := zone_if self 2 2.
Definition zone4 (self : Device) : result (option Valve) := zone_if self 2 3.

(** [Device.__getitem__]: falling off the end of the chain returns [None]. *)
Definition getitem (self : Device) (key : string) : result (option Valve) :=
  if String.eqb key "zone1" then zone1 self
  else if String.eqb key "zone2" then zone2 self
  else if String.eqb key "zone3" then zone3 self
  else if String.eqb key "zone4" then zone4 self
  else Ok None.

(** The end of [_read_model], once the manufacturer characteristic has
    answered: the payload is decoded and split into model and valve count. *)
Definition store_model (imports : Imports) (manufacturer_data : list byte)
  : M Device unit :=
  string <- call (Codec.decode_utf8 manufacturer_data) ;;
  modify (set_model (firstn 5 string)) ;;
  n <- call (Codec.int_of_slice (unicode_decimal imports)
                                (nth_error string 6)) ;;
  modify (set_valve_count n).

(** *** The methods that await *)

(** The device object, the class-level [_connection_lock] (one
    [asyncio.Lock] shared by every instance), the outside, and the transport
    calls made so far.  A method run here is a single task: the locks are
    free when it asks for them, so [async with GLOBAL_BLUETOOTH_LOCK] never
    suspends.  Interleaved callers are the subject of [Module Tasks]. *)
Record World (T : Type) : Type := mkWorld {
  device : Device;
  connection_lock_locked : bool;
  outside : T;
  log : list io
}.
Arguments mkWorld {T}.
Arguments device {T}.
Arguments connection_lock_locked {T}.
Arguments outside {T}.
Arguments log {T}.

Section DeviceMethods.

Context {T : Type} {O : Outside T}.
Variable imports : Imports.

Definition on_device (f : Device -> Device) : M (World T) unit :=
  modify (fun w => mkWorld (f (device w)) (connection_lock_locked w)
                           (outside w) (log w)).

Definition set_lock (b : bool) : M (World T) unit :=
  modify (fun w => mkWorld (device w) b (outside w) (log w)).

(** [await op]: the call is logged, the outside moves on, and the
    disconnection callback runs if the link dropped meanwhile. *)
Definition await {A} (e : io) (op : T -> awaited A T) : M (World T) A :=
  fun w =>
    let r := op (outside w) in
    (answer r,
     mkWorld (if link_dropped r then disconnected_callback (device w)
              else device w)
             (connection_lock_locked w) (after r) (log w ++ [e])).

(** [self._connection], which exists once [connect] has assigned it. *)
Definition the_connection : M (World T) BleakClient :=
  w <- get ;; call (attr (_connection (device w))).

(** [async with self._connection_lock: body]: released on the way out,
    exception or not. *)
Definition with_connection_lock {A} (body : M (World T) A) : M (World T) A :=
  fun w =>
    match (set_lock true ;; body) w with
    | (r, w') => (r, snd (set_lock false w'))
    end.

(** A computation on the device object alone. *)
Definition in_device {A} (m : M Device A) : M (World T) A :=
  fun w =>
    let (r, d) := m (device w) in
    (r, mkWorld d (connection_lock_locked w) (outside w) (log w)).

Definition _read_model : M (World T) unit :=
  c <- the_connection ;;
  manufacturer_data <-
    await (io_read c (MANUFACTURER_UUID imports))
          (read_gatt_char c (MANUFACTURER_UUID imports)) ;;
  in_device (store_model imports manufacturer_data).

Definition connect (retry_attempts : Z) : M (World T) unit :=
  w <- get ;;
  if _is_connected (device w) || connection_lock_locked w then ret tt
  else
    with_connection_lock
      (try_except_BleakError
         (c <- await (io_establish retry_attempts)
                     (establish_connection (_ble_device (device w))
                                           (_mac (device w)) retry_attempts) ;;
          on_device (set_connection c) ;;
          on_device (set_is_connected true) ;;
          _read_model)
         (fun _ => on_device (set_is_connected false))).

Definition disconnect : M (World T) unit :=
  c <- the_connection ;;
  await (io_disconnect c) (client_disconnect c).

Definition _read (uuid : string) : M (World T) (list byte) :=
  c <- the_connection ;;
  await (io_read c uuid) (read_gatt_char c uuid).

(** [await asyncio.gather] with [return_exceptions=True]: every coroutine
    runs, and an exception one of them raises becomes its entry in the
    result instead of being raised. *)
Fixpoint gather_return_exceptions (coros : list (M (World T) (list byte)))
  : M (World T) (list pyobj) :=
  match coros with
  | [] => ret []
  | c :: cs =>
      fun w =>
        let (r, w') := c w in
        let entry := match r with
                     | Ok b => PyBytes b
                     | Raise e => PyException e
                     end in
        (rest <- gather_return_exceptions cs ;; ret (entry :: rest)) w'
  end.

(** A method of the valve in slot [k], run on the object the list holds. *)
Definition on_valve {A} (k : nat) (m : M Valve A) : M (World T) A :=
  fun w =>
    match nth_error (_valves (device w)) k with
    | None => (Raise IndexError, w)
    | Some v =>
        let (r, v') := m v in
        (r, mkWorld (set_valves (list_set (_valves (device w)) k v')
                                (device w))
                    (connection_lock_locked w) (outside w) (log w))
    end.

Definition valve_slots : M (World T) (list nat) :=
  w <- get ;; ret (seq 0 (List.length (_valves (device w)))).

Definition fetch_state : M (World T) unit :=
  w <- get ;;
  (if negb (_is_connected (device w)) then connect 1 else ret tt) ;;
  let uuids := [BATTERY_UUID imports;
                VALVE_MANUAL_SETTINGS_UUID imports;
                VALVE_MANUAL_STATES_UUID imports] in
  try_except_BleakError
    (bytes_array <- gather_return_exceptions (map _read uuids) ;;
     for_each (combine (seq 0 (List.length bytes_array)) bytes_array)
       (fun '(i, some_bytes) =>
          uuid <- call (py_nth uuids i) ;;
          (if String.eqb uuid (BATTERY_UUID imports) then
             b <- call (parse_battery_value imports some_bytes) ;;
             on_device (set_battery b)
           else ret tt) ;;
          slots <- valve_slots ;;
          for_each slots
            (fun k =>
               some_bytes <- call (list_index uuids uuid) ;;
               raw <- call (py_nth bytes_array some_bytes) ;;
               uuid_i <- call (py_nth uuids i) ;;
               w' <- get ;;
               on_valve k
                 (update_state (VALVE_MANUAL_SETTINGS_UUID imports)
                               (VALVE_MANUAL_STATES_UUID imports)
                               (date_time_shift (outside w'))
                               raw uuid_i))))
    (fun error =>
       w' <- get ;;
       if _is_connected (device w') then raise error else ret tt).

(** [self._valves[k]._manual_setting_bytes()]. *)
Definition valve_bytes (k : nat) : M (World T) (list byte) :=
  w <- get ;;
  v <- call (py_nth (_valves (device w)) k) ;;
  call (_manual_setting_bytes v).

(** The first [if] block of [push_state]: the four settings slots to the
    settings characteristic, if the service table has it. *)
Definition push_settings : M (World T) unit :=
  c <- the_connection ;;
  w <- get ;;
  match get_characteristic c (VALVE_MANUAL_SETTINGS_UUID imports)
                           (outside w) with
  | Some handle =>
      c' <- the_connection ;;
      b0 <- valve_bytes 0 ;;
      b1 <- valve_bytes 1 ;;
      b2 <- valve_bytes 2 ;;
      b3 <- valve_bytes 3 ;;
      await (io_write c' handle (b0 ++ b1 ++ b2 ++ b3) true)
            (write_gatt_char c' handle (b0 ++ b1 ++ b2 ++ b3) true)
  | None => ret tt
  end.

(** The second [if] block: the current time to the updated-at
    characteristic, if the service table has it. *)
Definition push_updated_at : M (World T) unit :=
  c <- the_connection ;;
  w <- get ;;
  match get_characteristic c (UPDATED_AT_UUID imports) (outside w) with
  | Some handle =>
      c' <- the_connection ;;
      stamp <- call (Struct.pack_I (date_get_timestamp (outside w))) ;;
      await (io_write c' handle stamp true)
            (write_gatt_char c' handle stamp true)
  | None => ret tt
  end.

Definition push_state : M (World T) unit :=
  w <- get ;;
  (if negb (_is_connected (device w)) then connect 1 else ret tt) ;;
  push_settings ;;
  push_updated_at.

End DeviceMethods.

(** ** A scripted outside

    The stand-in the tests build with [mock]: fixed answers per
    characteristic, and a link that may drop while one of them is read. *)
Record Mock : Type := mkMock {
  mock_establish : result BleakClient;
  mock_read : string -> result (list byte);
  mock_drop_on_read : string -> bool;
  mock_services : string -> option Z;
  mock_time_shift : Z;
  mock_timestamp : Z
}.

#[global] Instance Mock_Outside : Outside Mock := {|
  establish_connection := fun _ _ _ m => mkAwaited (mock_establish m) false m;
  read_gatt_char := fun _ uuid m =>
    mkAwaited (mock_read m uuid) (mock_drop_on_read m uuid) m;
  write_gatt_char := fun _ _ _ _ m => mkAwaited (Ok tt) false m;
  client_disconnect := fun _ m => mkAwaited (Ok tt) true m;
  get_characteristic := fun _ uuid m => mock_services m uuid;
  date_time_shift := mock_time_shift;
  date_get_timestamp := mock_timestamp
|}.

(** Identifiers for the runs below; any five distinct strings would do. *)
Definition test_imports (battery : pyobj -> result Z) : Imports :=
  {| BATTERY_UUID := "battery";
     MANUFACTURER_UUID := "manufacturer";
     UPDATED_AT_UUID := "updated_at";
     VALVE_MANUAL_SETTINGS_UUID := "settings";
     VALVE_MANUAL_STATES_UUID := "states";
     parse_battery_value := battery;
     unicode_decimal := fun _ => None |}.

Definition fresh_world {T} (o : T) : World T :=
  mkWorld (Device_init (mkBLEDevice "AA:BB" 6)) false o [].


(** ** Several callers of [connect]

    [asyncio] runs one task at a time and switches only where a task
    awaits.  [connect] awaits in three places: the global lock when it is
    taken, [establish_connection], and the read in [_read_model].  A state
    of the machine below is the device, the two locks and the place each
    caller has reached; an event is the loop running a task, the transport
    answering one, or the transport reporting that the link dropped. *)
Module Tasks.

Inductive pc : Type :=
| Created
| WaitingGlobal
| AwaitingEstablish
| AwaitingModel (c : BleakClient)
| Finished (r : result unit).

(** An [asyncio.Lock] is its flag and its queue of waiters; the
    connection lock is only ever tested and taken while free, so its flag is
    all there is to it. *)
Record State : Type := mkState {
  dev : Device;
  global_locked : bool;
  global_waiters : list nat;
  connection_locked : bool;
  tasks : list pc;
  establish_calls : nat
}.

Inductive event : Type :=
| Run (t : nat)
| Established (t : nat) (r : result BleakClient)
| ModelRead (t : nat) (r : result (list byte))
| Dropped.

Definition init (d : Device) (callers : nat) : State :=
  mkState d false [] false (repeat Created callers) 0.

(** Task [t] has the global lock: the guard, then either [return] (the
    global lock is released) or the connection lock and the call of
    [establish_connection], where the task is suspended. *)
Definition enter (t : nat) (st : State) : State :=
  if _is_connected (dev st) || connection_locked st then
    mkState (dev st) false (global_waiters st) (connection_locked st)
            (list_set (tasks st) t (Finished (Ok tt))) (establish_calls st)
  else
    mkState (dev st) true (global_waiters st) true
            (list_set (tasks st) t AwaitingEstablish)
            (S (establish_calls st)).

(** Task [t] leaves both [async with] blocks with result [r]. *)
Definition finish (t : nat) (r : result unit) (d : Device) (st : State)
  : State :=
  mkState d false (global_waiters st) false
          (list_set (tasks st) t (Finished r)) (establish_calls st).

(** The [try] statement ends with [r]: [except BleakError] marks the device
    disconnected and swallows the error, anything else propagates. *)
Definition after_try (t : nat) (r : result unit) (d : Device) (st : State)
  : State :=
  match r with
  | Ok _ => finish t (Ok tt) d st
  | Raise e =>
      if is_BleakError e then finish t (Ok tt) (set_is_connected false d) st
      else finish t (Raise e) d st
  end.

Section Steps.

Variable imports : Imports.

Definition step (st : State) (e : event) : option State :=
  match e with
  | Run t =>
      match nth_error (tasks st) t with
      | Some Created =>
          match global_locked st, global_waiters st with
          | false, [] => Some (enter t st)
          | _, _ =>
              Some (mkState (dev st) (global_locked st)
                            (global_waiters st ++ [t]) (connection_locked st)
                            (list_set (tasks st) t WaitingGlobal)
                            (establish_calls st))
          end
      | Some WaitingGlobal =>
          match global_locked st, global_waiters st with
          | false, t' :: ws =>
              if Nat.eqb t' t then
                Some (enter t (mkState (dev st) false ws (connection_locked st)
                                       (tasks st) (establish_calls st)))
              else None
          | _, _ => None
          end
      | _ => None
      end
  | Established t r =>
      match nth_error (tasks st) t with
      | Some AwaitingEstablish =>
          match r with
          | Ok c =>
              Some (mkState (set_is_connected true (set_connection c (dev st)))
                            (global_locked st) (global_waiters st)
                            (connection_locked st)
                            (list_set (tasks st) t (AwaitingModel c))
                            (establish_calls st))
          | Raise e => Some (after_try t (Raise e) (dev st) st)
          end
      | _ => None
      end
  | ModelRead t r =>
      match nth_error (tasks st) t with
      | Some (AwaitingModel _) =>
          match r with
          | Ok manufacturer_data =>
              let (r', d) := store_model imports manufacturer_data (dev st) in
              Some (after_try t r' d st)
          | Raise e => Some (after_try t (Raise e) (dev st) st)
          end
      | _ => None
      end
  | Dropped =>
      Some (mkState (disconnected_callback (dev st)) (global_locked st)
                    (global_waiters st) (connection_locked st) (tasks st)
                    (establish_calls st))
  end.

Fixpoint run (st : State) (es : list event) : option State :=
  match es with
  | [] => Some st
  | e :: es' =>
      match step st e with
      | Some st' => run st' es'
      | None => None
      end
  end.

End Steps.


Definition is_finished (p : pc) : bool :=
  match p with Finished _ => true | _ => false end.


End Tasks.

(** ** Sample data *)

(** The payload the tests give the manufacturer characteristic:
    [b"111110400"]. *)
Definition manufacturer_4_valves : list byte :=
  [x31; x31; x31; x31; x31; x30; x34; x30; x30].

(** A transport where the settings read answers [settings] and the link
    drops during that read if [drop]. *)
Definition sample_mock (settings : result (list byte)) (drop : bool) : Mock :=
  {| mock_establish := Ok 7%nat;
     mock_read := fun uuid =>
       if String.eqb uuid "manufacturer" then Ok manufacturer_4_valves
       else if String.eqb uuid "settings" then settings
       else if String.eqb uuid "battery" then Ok [x02; x85]
       else Ok (repeat x00 20);
     mock_drop_on_read := fun uuid => String.eqb uuid "settings" && drop;
     mock_services := fun uuid =>
       if String.eqb uuid "settings" then Some 5 else None;
     mock_time_shift := 100;
     mock_timestamp := 200 |}.

Definition sample_imports : Imports := test_imports (fun _ => Ok 30).


(** Four callers start together; every attempt fails with [BleakError]. *)
Definition failing_schedule : list Tasks.event :=
  [Tasks.Run 0; Tasks.Run 1; Tasks.Run 2; Tasks.Run 3;
   Tasks.Established 0 (Raise BleakError);
   Tasks.Run 1; Tasks.Established 1 (Raise BleakError);
   Tasks.Run 2; Tasks.Established 2 (Raise BleakError);
   Tasks.Run 3; Tasks.Established 3 (Raise BleakError)].

(** The events a single caller of [connect] meets, given what the outside
    answers: the machine's view of one run of the method. *)
Definition drop_events (dropped : bool) : list Tasks.event :=
  if dropped then [Tasks.Dropped] else [].

Definition single_caller_events {T} `{Outside T} (imports : Imports)
    (retry_attempts : Z) (w : World T) : list Tasks.event :=
  let a1 := establish_connection (_ble_device (device w)) (_mac (device w))
                                 retry_attempts (outside w) in
  Tasks.Run 0
    :: drop_events (link_dropped a1)
    ++ Tasks.Established 0 (answer a1)
    :: match answer a1 with
       | Ok c =>
           let a2 := read_gatt_char c (MANUFACTURER_UUID imports) (after a1) in
           drop_events (link_dropped a2) ++ [Tasks.ModelRead 0 (answer a2)]
       | Raise _ => []
       end.

(** [zone_manual_setting_bytes] of the test module: four watering valves
    with 5, 10, 15 and 20 minutes. *)
Definition zone_manual_setting_bytes : list byte :=
  [x01; x00; x05; x00; x05; x01; x00; x0a; x00; x0a;
   x01; x00; x0f; x00; x0f; x01; x00; x14; x00; x14].

(** The transport of [test_fetch]: settings all zero, a running counter for
    the first valve only. *)
Definition fetch_mock : Mock :=
  {| mock_establish := Ok 7%nat;
     mock_read := fun uuid =>
       if String.eqb uuid "manufacturer" then Ok manufacturer_4_valves
       else if String.eqb uuid "settings" then Ok (repeat x00 20)
       else if String.eqb uuid "battery" then Ok [x02; x85]
       else Ok ([x01; xff; xff; xff; xff]
                  ++ List.concat (repeat [x01; x00; x00; x00; x00] 3));
     mock_drop_on_read := fun _ => false;
     mock_services := fun _ => None;
     mock_time_shift := 100;
     mock_timestamp := 200 |}.

Definition connected_world (o : Mock) : World Mock :=
  mkWorld (set_valve_count 4
             (set_is_connected true
                (set_connection 7%nat (Device_init (mkBLEDevice "AA:BB" 6)))))
          false o [].

(** A transport that refuses every connection attempt. *)
Definition refusing_mock : Mock :=
  {| mock_establish := Raise BleakError;
     mock_read := fun _ => Raise BleakError;
     mock_drop_on_read := fun _ => false;
     mock_services := fun _ => None;
     mock_time_shift := 100;
     mock_timestamp := 200 |}.

(** A transport whose manufacturer characteristic holds [payload]. *)
Definition manufacturer_mock (payload : list byte) : Mock :=
  {| mock_establish := Ok 7%nat;
     mock_read := fun _ => Ok payload;
     mock_drop_on_read := fun _ => false;
     mock_services := fun _ => None;
     mock_time_shift := 100;
     mock_timestamp := 200 |}.

(** A transport that refuses to reconnect but still lists the settings
    characteristic of the old connection. *)
Definition stale_mock : Mock :=
  {| mock_establish := Raise BleakError;
     mock_read := fun _ => Raise BleakError;
     mock_drop_on_read := fun _ => false;
     mock_services := fun uuid =>
       if String.eqb uuid "settings" then Some 5 else None;
     mock_time_shift := 100;
     mock_timestamp := 200 |}.

(** A transport whose service table has the updated-at characteristic
    only. *)
Definition stamp_mock : Mock :=
  {| mock_establish := Ok 7%nat;
     mock_read := fun _ => Raise BleakError;
     mock_drop_on_read := fun _ => false;
     mock_services := fun uuid =>
       if String.eqb uuid "updated_at" then Some 9 else None;
     mock_time_shift := 100;
     mock_timestamp := 200 |}.

(** A device that was connected once and has lost the link. *)
Definition dropped_world (o : Mock) : World Mock :=
  mkWorld (set_is_connected false (device (connected_world o))) false o [].

(** A transport on which every write fails and drops the link. *)
Record BrokenWrites : Type := mkBrokenWrites { broken_inner : Mock }.

#[global] Instance BrokenWrites_Outside : Outside BrokenWrites := {|
  establish_connection := fun _ _ _ m => mkAwaited (Ok 7%nat) false m;
  read_gatt_char := fun _ uuid m =>
    mkAwaited (mock_read (broken_inner m) uuid) false m;
  write_gatt_char := fun _ _ _ _ m => mkAwaited (Raise BleakError) true m;
  client_disconnect := fun _ m => mkAwaited (Ok tt) true m;
  get_characteristic := fun _ uuid m => mock_services (broken_inner m) uuid;
  date_time_shift := fun m => mock_time_shift (broken_inner m);
  date_get_timestamp := fun m => mock_timestamp (broken_inner m)
|}.

Definition broken_world : World BrokenWrites :=
  mkWorld (device (connected_world (sample_mock (Ok []) false))) false
          (mkBrokenWrites (sample_mock (Ok []) false)) [].

(** The encoding of a valve as [Valve.__init__] leaves it. *)
Definition default_slot : list byte := [x00; x00; x14; x00; x14].

(** ** What a method leaves as it found it *)

(** [m] keeps [P]: whatever [m] does, returning or raising, a state with
    [P] is followed by a state with [P]. *)
Definition keeps {S A} (P : S -> Prop) (m : M S A) : Prop :=
  forall s, P s -> P (snd (m s)).

Definition is_write (e : io) : bool :=
  match e with io_write _ _ _ _ => true | _ => false end.

(** ** The rest of the public interface *)

(** The properties of a device that only read a field. *)
Definition battery_level (self : Device) : Z := _battery self.
Definition is_connected (self : Device) : bool := _is_connected self.
Definition mac (self : Device) : string := _mac self.
Definition model (self : Device) : result pystr := attr (_model self).
Definition device_rssi (self : Device) : Z := rssi (_ble_device self).
Definition valve_count (self : Device) : result Z := attr (_valve_count self).

Definition update_ble_device (ble_device : BLEDevice) (self : Device)
  : Device :=
  set_ble_device ble_device self.

(** What a program holding a device can do to it between two awaits, and
    what the transport can do behind its back. *)
Inductive op : Type :=
| OpConnect (retry_attempts : Z)
| OpDisconnect
| OpFetchState
| OpPushState
| OpSetIsWatering (slot : nat) (value : bool)
| OpSetManualMinutes (slot : nat) (value : Z)
| OpSetValveCount (value : Z)
| OpUpdateBleDevice (ble_device : BLEDevice)
| OpLinkDropped.

Section Operations.

Context {T : Type} {O : Outside T}.
Variable imports : Imports.

(** One operation, with whatever it raises caught by the caller. *)
Definition run_op (o : op) (w : World T) : World T :=
  match o with
  | OpConnect retry_attempts => snd (connect imports retry_attempts w)
  | OpDisconnect => snd (disconnect w)
  | OpFetchState => snd (fetch_state imports w)
  | OpPushState => snd (push_state imports w)
  | OpSetIsWatering slot value =>
      snd (on_valve slot (modify (set_is_watering value)) w)
  | OpSetManualMinutes slot value =>
      snd (on_valve slot (modify (set_manual_minutes value)) w)
  | OpSetValveCount value => snd (on_device (set_valve_count value) w)
  | OpUpdateBleDevice ble_device =>
      snd (on_device (update_ble_device ble_device) w)
  | OpLinkDropped => snd (on_device disconnected_callback w)
  end.

Definition run_ops (os : list op) (w : World T) : World T :=
  fold_left (fun w o => run_op o w) os w.

End Operations.

(** * Properties *)

(** ** Bytes and [struct] *)

Module StructFacts.
Import Struct.

Lemma byte_val_range (b : byte) : 0 <= byte_val b < 256.
Proof.
  unfold byte_val. pose proof (Byte.to_N_bounded b). lia.
Qed.

Lemma byte_of_Z_val (q : Z) (b : byte) : byte_of_Z (q * 256 + byte_val b) = b.
Proof.
  unfold byte_of_Z.
  rewrite Z.add_comm, Z.mod_add by lia.
  rewrite Z.mod_small by apply byte_val_range.
  unfold byte_val. now rewrite N2Z.id, Byte.of_to_N.
Qed.

Lemma be_uint_snoc (bs : list byte) (b : byte) :
  be_uint (bs ++ [b]) = be_uint bs * 256 + byte_val b.
Proof. unfold be_uint. now rewrite fold_left_app. Qed.

Lemma be_uint_range (bs : list byte) :
  0 <= be_uint bs < 256 ^ Z.of_nat (List.length bs).
Proof.
  induction bs as [|b bs IH] using rev_ind.
  - cbn. lia.
  - rewrite be_uint_snoc, length_app, Nat2Z.inj_add, Z.pow_add_r by lia.
    cbn [List.length]. change (256 ^ Z.of_nat 1) with 256.
    pose proof (byte_val_range b). nia.
Qed.

(** Packing what was unpacked gives the bytes back, at every width. *)
Lemma be_bytes_be_uint (bs : list byte) :
  be_bytes (List.length bs) (be_uint bs) = bs.
Proof.
  induction bs as [|b bs IH] using rev_ind.
  - reflexivity.
  - rewrite length_app, Nat.add_comm. cbn [List.length Nat.add be_bytes].
    rewrite be_uint_snoc, byte_of_Z_val.
    rewrite Z.div_add_l, Z.div_small, Z.add_0_r by
      (try apply byte_val_range; lia).
    now rewrite IH.
Qed.

Lemma pack_uint_be_uint (bs : list byte) :
  pack_uint (List.length bs) (be_uint bs) = Ok bs.
Proof.
  unfold pack_uint. pose proof (be_uint_range bs) as R.
  destruct (Z.leb_spec 0 (be_uint bs)); [|lia].
  destruct (Z.ltb_spec (be_uint bs) (256 ^ Z.of_nat (List.length bs))); [|lia].
  cbn [andb]. now rewrite be_bytes_be_uint.
Qed.

Lemma be_uint_be_bytes (n : nat) (z : Z) :
  0 <= z < 256 ^ Z.of_nat n -> be_uint (be_bytes n z) = z.
Proof.
  revert z. induction n as [|n IH]; intros z Hz.
  - cbn in *. lia.
  - cbn [be_bytes]. rewrite be_uint_snoc.
    rewrite Nat2Z.inj_succ, Z.pow_succ_r in Hz by lia.
    rewrite IH by (split; [apply Z.div_pos; lia
                          | apply Z.div_lt_upper_bound; lia]).
    unfold byte_of_Z.
    pose proof (Z.mod_pos_bound z 256 ltac:(lia)) as Hm.
    destruct (Byte.of_N (Z.to_N (z mod 256))) as [b|] eqn:E.
    + apply Byte.to_of_N in E. unfold byte_val. rewrite E, Z2N.id by lia.
      pose proof (Z.div_mod z 256 ltac:(lia)). lia.
    + apply Byte.of_N_None_iff in E. lia.
Qed.

Lemma length_be_bytes (n : nat) (z : Z) : List.length (be_bytes n z) = n.
Proof.
  revert z. induction n as [|n IH]; intros z; cbn [be_bytes].
  - reflexivity.
  - rewrite length_app, IH. cbn. lia.
Qed.

(** Reading inside the buffer, from a non-negative offset. *)
Lemma unpack_from_raw_inside (size : Z) (buf : list byte) (offset : Z) :
  0 <= offset -> 0 <= size -> offset + size <= Z.of_nat (List.length buf) ->
  unpack_from_raw size (PyBytes buf) offset =
  Ok (firstn (Z.to_nat size) (skipn (Z.to_nat offset) buf)).
Proof.
  intros H0 Hs H1. unfold unpack_from_raw, fits_ssize_t.
  assert (G : negb ((- 2 ^ 63 <=? offset) && (offset <? 2 ^ 63))
              && ((- 2 ^ 63 <=? Z.of_nat (List.length buf))
                  && (Z.of_nat (List.length buf) <? 2 ^ 63)) = false).
  { destruct (Z.leb_spec (- 2 ^ 63) offset); [|lia].
    destruct (Z.ltb_spec offset (2 ^ 63)); [reflexivity|].
    destruct (Z.leb_spec (- 2 ^ 63) (Z.of_nat (List.length buf))); [|lia].
    destruct (Z.ltb_spec (Z.of_nat (List.length buf)) (2 ^ 63)); [lia|].
    reflexivity. }
  rewrite G.
  destruct (Z.ltb_spec offset 0); [lia|].
  destruct (Z.ltb_spec (Z.of_nat (List.length buf) - offset) size); [lia|].
  reflexivity.
Qed.

(** Reading past the end, from a non-negative offset that fits a word. *)
Lemma unpack_from_raw_short (size : Z) (buf : list byte) (offset : Z) :
  0 <= offset < 2 ^ 63 -> Z.of_nat (List.length buf) < offset + size ->
  unpack_from_raw size (PyBytes buf) offset = Raise StructError.
Proof.
  intros H0 H1. unfold unpack_from_raw, fits_ssize_t.
  destruct (Z.leb_spec (- 2 ^ 63) offset); [|lia].
  destruct (Z.ltb_spec offset (2 ^ 63)); [|lia]. cbn [andb negb].
  destruct (Z.ltb_spec offset 0); [lia|].
  destruct (Z.ltb_spec (Z.of_nat (List.length buf) - offset) size); [|lia].
  reflexivity.
Qed.

(** An offset beyond [Py_ssize_t] is refused before the buffer is looked
    at. *)
Lemma unpack_from_raw_overflow (size : Z) (buf : list byte) (offset : Z) :
  2 ^ 63 <= offset -> Z.of_nat (List.length buf) < 2 ^ 63 ->
  unpack_from_raw size (PyBytes buf) offset = Raise OverflowError.
Proof.
  intros H0 H1. unfold unpack_from_raw, fits_ssize_t.
  destruct (Z.leb_spec (- 2 ^ 63) offset); [|lia].
  destruct (Z.ltb_spec offset (2 ^ 63)); [lia|].
  destruct (Z.leb_spec (- 2 ^ 63) (Z.of_nat (List.length buf))); [|lia].
  destruct (Z.ltb_spec (Z.of_nat (List.length buf)) (2 ^ 63)); [|lia].
  reflexivity.
Qed.

Lemma unpack_from_raw_app (pre mid post : list byte) :
  unpack_from_raw (Z.of_nat (List.length mid)) (PyBytes (pre ++ mid ++ post))
                  (Z.of_nat (List.length pre)) = Ok mid.
Proof.
  rewrite unpack_from_raw_inside.
  - rewrite !Nat2Z.id, skipn_app, skipn_all, Nat.sub_diag. cbn [skipn app].
    now rewrite firstn_app, firstn_all, Nat.sub_diag, firstn_0, app_nil_r.
  - lia.
  - lia.
  - rewrite !length_app. lia.
Qed.

End StructFacts.

(** ** Valves *)

Section ValveFacts.
Import Struct StructFacts.

Variables SETTINGS STATES : string.
Variable time_shift : Z.

Let update := update_state SETTINGS STATES time_shift.

(** The settings branch, step by step: the flag is stored before the
    minutes are read. *)
Lemma update_state_settings (raw : pyobj) (v : Valve) :
  update raw SETTINGS v =
  match unpack_from_bool raw (_id v * 5) with
  | Raise e => (Raise e, v)
  | Ok w =>
      match unpack_from_H raw (_id v * 5 + 1) with
      | Raise e => (Raise e, set_is_watering w v)
      | Ok m => (Ok tt, set_manual_minutes m (set_is_watering w v))
      end
  end.
Proof.
  unfold update, update_state, bind, get, call, modify.
  rewrite String.eqb_refl.
  destruct (unpack_from_bool raw (_id v * 5)) as [w|e]; [|reflexivity].
  destruct (unpack_from_H raw (_id v * 5 + 1)); reflexivity.
Qed.

(** The states branch, reached when the two identifiers differ. *)
Lemma update_state_states (raw : pyobj) (v : Valve) :
  SETTINGS <> STATES ->
  update raw STATES v =
  match unpack_from_I raw (_id v * 5 + 1) with
  | Raise e => (Raise e, v)
  | Ok t => (Ok tt, set_end_time (if t =? 0 then 0 else t - time_shift) v)
  end.
Proof.
  intros Hne. unfold update, update_state, bind, get, call, modify.
  destruct (String.eqb_spec STATES SETTINGS) as [E|_]; [congruence|].
  rewrite String.eqb_refl.
  destruct (unpack_from_I raw (_id v * 5 + 1)) as [t|e]; [|reflexivity].
  destruct (t =? 0); reflexivity.
Qed.

(** Any other identifier leaves the valve alone. *)
Lemma update_state_other (raw : pyobj) (uuid : string) (v : Valve) :
  uuid <> SETTINGS -> uuid <> STATES -> update raw uuid v = (Ok tt, v).
Proof.
  intros H1 H2. unfold update, update_state, bind, get.
  destruct (String.eqb_spec uuid SETTINGS); [congruence|].
  destruct (String.eqb_spec uuid STATES); [congruence|].
  reflexivity.
Qed.

Lemma skipn_slot (pre : list byte) (b : byte) (rest : list byte) (n : Z) :
  Z.of_nat (List.length pre) = n ->
  skipn (Z.to_nat (n + 1)) (pre ++ b :: rest) = rest.
Proof.
  intros <-. replace (Z.to_nat (Z.of_nat (List.length pre) + 1))
    with (List.length pre + 1)%nat by lia.
  rewrite skipn_app, skipn_all2 by lia.
  replace (List.length pre + 1 - List.length pre)%nat with 1%nat by lia.
  reflexivity.
Qed.

Lemma skipn_slot0 (pre rest : list byte) (n : Z) :
  Z.of_nat (List.length pre) = n ->
  skipn (Z.to_nat n) (pre ++ rest) = rest.
Proof.
  intros <-. rewrite Nat2Z.id, skipn_app, skipn_all, Nat.sub_diag.
  reflexivity.
Qed.

(** What the settings branch does to a whole 5-byte slot. *)
Lemma update_state_settings_slot (v : Valve) (pre post : list byte)
    (b0 m1 m2 d1 d2 : byte) :
  Z.of_nat (List.length pre) = _id v * 5 ->
  update (PyBytes (pre ++ [b0; m1; m2; d1; d2] ++ post)) SETTINGS v =
  (Ok tt, set_manual_minutes (be_uint [m1; m2])
            (set_is_watering (negb (byte_val b0 =? 0)) v)).
Proof.
  intros Hlen. rewrite update_state_settings.
  unfold unpack_from_bool, unpack_from_H.
  rewrite !unpack_from_raw_inside
    by (rewrite ?length_app; cbn [List.length]; lia).
  rewrite (skipn_slot0 pre _ (_id v * 5) Hlen).
  cbn [app]. rewrite (skipn_slot pre b0 _ (_id v * 5) Hlen).
  reflexivity.
Qed.

(** C1, as amended.  A 5-byte settings slot decoded into a fresh valve and
    encoded again gives the flag byte normalised to 0x00 or 0x01 followed by
    the canonical minutes in both 16-bit positions; the original slot comes
    back when its flag byte is 0x00 or 0x01 and its duplicate field equals
    the canonical one. *)
Theorem settings_decode_then_encode (i : Z) (pre post : list byte)
    (b0 m1 m2 d1 d2 : byte) :
  Z.of_nat (List.length pre) = i * 5 ->
  decode_then_encode SETTINGS STATES time_shift i
    (PyBytes (pre ++ [b0; m1; m2; d1; d2] ++ post))
  = Ok [if byte_val b0 =? 0 then x00 else x01; m1; m2; m1; m2]
  /\ (b0 = x00 \/ b0 = x01 -> d1 = m1 -> d2 = m2 ->
      decode_then_encode SETTINGS STATES time_shift i
        (PyBytes (pre ++ [b0; m1; m2; d1; d2] ++ post))
      = Ok [b0; m1; m2; d1; d2]).
Proof.
  intros Hlen.
  assert (E : decode_then_encode SETTINGS STATES time_shift i
                (PyBytes (pre ++ [b0; m1; m2; d1; d2] ++ post))
              = Ok [if byte_val b0 =? 0 then x00 else x01; m1; m2; m1; m2]).
  { unfold decode_then_encode.
    pose proof (update_state_settings_slot (Valve_init i) pre post
                  b0 m1 m2 d1 d2 Hlen) as U.
    unfold update in U. rewrite U.
    unfold _manual_setting_bytes, pack_bool_H_H.
    cbn [_manual_minutes _is_watering set_manual_minutes set_is_watering].
    pose proof (pack_uint_be_uint [m1; m2]) as P.
    cbn [List.length] in P. rewrite P.
    destruct (byte_val b0 =? 0); reflexivity. }
  split; [exact E|].
  intros Hb -> ->. rewrite E.
  destruct Hb as [-> | ->]; reflexivity.
Qed.

(** C2.  With the states identifier, a valve of index 0..3 and a buffer that
    holds its whole slot, [update_state] returns and [watering_end_time] is
    then 0 when the big-endian 32-bit counter at [5*i+1] is 0, the counter
    minus the time shift otherwise; the flag, the minutes and the index are
    what they were, and the byte at [5*i] has no influence. *)
Theorem update_state_manual_states (v : Valve) (buf : list byte) :
  SETTINGS <> STATES ->
  0 <= _id v <= 3 ->
  5 * _id v + 5 <= Z.of_nat (List.length buf) ->
  let raw := be_uint (firstn 4 (skipn (Z.to_nat (5 * _id v + 1)) buf)) in
  let r := update_state SETTINGS STATES time_shift (PyBytes buf) STATES v in
  fst r = Ok tt
  /\ watering_end_time (snd r) = (if raw =? 0 then 0 else raw - time_shift)
  /\ is_watering (snd r) = is_watering v
  /\ manual_watering_minutes (snd r) = manual_watering_minutes v
  /\ _id (snd r) = _id v
  /\ forall (pre rest : list byte) (b b' : byte),
      Z.of_nat (List.length pre) = 5 * _id v ->
      buf = pre ++ b :: rest ->
      update_state SETTINGS STATES time_shift (PyBytes (pre ++ b' :: rest))
                   STATES v = r.
Proof.
  intros Hne Hid Hlen raw r.
  assert (E : forall buf',
             5 * _id v + 5 <= Z.of_nat (List.length buf') ->
             update (PyBytes buf') STATES v =
             (Ok tt,
              set_end_time
                (if be_uint (firstn 4 (skipn (Z.to_nat (5 * _id v + 1)) buf'))
                    =? 0 then 0
                 else be_uint (firstn 4
                                 (skipn (Z.to_nat (5 * _id v + 1)) buf'))
                      - time_shift) v)).
  { intros buf' Hlen'. rewrite update_state_states by exact Hne.
    unfold unpack_from_I. rewrite unpack_from_raw_inside by lia.
    replace (_id v * 5 + 1) with (5 * _id v + 1) by lia. reflexivity. }
  subst r. fold update. rewrite (E buf Hlen). cbn [fst snd].
  split; [reflexivity|]. split; [reflexivity|]. split; [reflexivity|].
  split; [reflexivity|]. split; [reflexivity|].
  intros pre rest b b' Hpre ->.
  rewrite E by (rewrite length_app in *; cbn [List.length] in *; lia).
  now rewrite !skipn_slot by exact Hpre.
Qed.

(** C3, as amended.  For a valve whose minutes fit 16 bits,
    [_manual_setting_bytes] returns exactly five bytes: the flag as 0x01 or
    0x00, then the minutes big-endian, twice.  A watering valve with 10
    minutes gives 01 00 0A 00 0A. *)
Theorem manual_setting_bytes_layout (v : Valve) :
  0 <= _manual_minutes v <= 65535 ->
  (exists hi lo : byte,
      _manual_setting_bytes v
      = Ok [if _is_watering v then x01 else x00; hi; lo; hi; lo]
      /\ be_uint [hi; lo] = _manual_minutes v)
  /\ (_is_watering v = true -> _manual_minutes v = 10 ->
      _manual_setting_bytes v = Ok [x01; x00; x0a; x00; x0a]).
Proof.
  intros Hm. split.
  - exists (byte_of_Z (_manual_minutes v / 256)), (byte_of_Z (_manual_minutes v)).
    split.
    + unfold _manual_setting_bytes, pack_bool_H_H, pack_uint.
      change (256 ^ Z.of_nat 2) with 65536.
      destruct (Z.leb_spec 0 (_manual_minutes v)); [|lia].
      destruct (Z.ltb_spec (_manual_minutes v) 65536); [|lia].
      reflexivity.
    + apply (be_uint_be_bytes 2). change (256 ^ Z.of_nat 2) with 65536. lia.
  - intros Hw H10. unfold _manual_setting_bytes. rewrite Hw, H10.
    reflexivity.
Qed.

(** C4, as amended.  With the settings identifier and a valve of index
    0..3, [update_state] raises [struct.error] when the buffer is shorter
    than [5*i+3] and returns when it is not: the duplicate field is never
    read.  When it raises the minutes are unchanged, and below [5*i+1] the
    whole valve is. *)
Theorem update_state_settings_short (v : Valve) (buf : list byte) :
  0 <= _id v <= 3 ->
  let r := update_state SETTINGS STATES time_shift (PyBytes buf) SETTINGS v in
  let len := Z.of_nat (List.length buf) in
  (len < 5 * _id v + 3 ->
     fst r = Raise StructError
     /\ manual_watering_minutes (snd r) = manual_watering_minutes v)
  /\ (len < 5 * _id v + 1 -> snd r = v)
  /\ (5 * _id v + 3 <= len -> fst r = Ok tt).
Proof.
  intros Hid r len. subst r. fold update. rewrite update_state_settings.
  unfold unpack_from_bool, unpack_from_H.
  assert (W : 2 ^ 63 = 9223372036854775808) by reflexivity.
  destruct (Z.lt_ge_cases len (5 * _id v + 1)) as [H1|H1].
  - rewrite unpack_from_raw_short by (fold len; rewrite ?W; lia).
    cbn [fst snd]. repeat split; auto; lia.
  - rewrite (unpack_from_raw_inside 1) by (fold len; lia).
    destruct (Z.lt_ge_cases len (5 * _id v + 3)) as [H3|H3].
    + rewrite unpack_from_raw_short by (fold len; rewrite ?W; lia).
      cbn [fst snd]. repeat split; auto; lia.
    + rewrite (unpack_from_raw_inside 2) by (fold len; lia).
      cbn [fst snd]. repeat split; auto; lia.
Qed.

End ValveFacts.

(** *** Concrete runs *)

Open Scope string_scope.
Open Scope list_scope.

Lemma settings_decode_then_encode_witness :
  decode_then_encode "settings" "states" 0 1
    (PyBytes ([x00; x00; x14; x00; x14] ++ [x01; x00; x0a; x00; x0a] ++ []))
  = Ok [x01; x00; x0a; x00; x0a].
Proof.
  apply (settings_decode_then_encode "settings" "states" 0 1
           [x00; x00; x14; x00; x14] [] x01 x00 x0a x00 x0a).
  - reflexivity.
  - right; reflexivity.
  - reflexivity.
  - reflexivity.
Defined.

(** C1 as stated fails on a slot whose flag byte is neither 0x00 nor 0x01:
    its duplicate field equals the canonical one, yet 02 00 05 00 05 comes
    back as 01 00 05 00 05. *)
Lemma settings_decode_then_encode_counterexample :
  let slot := [x02; x00; x05; x00; x05] in
  firstn 2 (skipn 3 slot) = firstn 2 (skipn 1 slot)
  /\ decode_then_encode "settings" "states" 0 0 (PyBytes slot)
     = Ok [x01; x00; x05; x00; x05]
  /\ decode_then_encode "settings" "states" 0 0 (PyBytes slot) <> Ok slot.
Proof.
  cbv zeta. split; [reflexivity|]. split; [reflexivity|].
  intros H. vm_compute in H. discriminate H.
Qed.

Lemma update_state_manual_states_witness :
  let r := update_state "settings" "states" 100
             (PyBytes [x01; x00; x00; x00; x00; x02; x00; x00; x01; x00])
             "states" (Valve_init 1) in
  fst r = Ok tt /\ watering_end_time (snd r) = 156.
Proof.
  destruct (update_state_manual_states "settings" "states" 100 (Valve_init 1)
              [x01; x00; x00; x00; x00; x02; x00; x00; x01; x00])
    as (H1 & H2 & _).
  - discriminate.
  - cbn. lia.
  - cbn. lia.
  - split; [exact H1|exact H2].
Defined.

Lemma manual_setting_bytes_layout_witness :
  _manual_setting_bytes
    (set_manual_minutes 10 (set_is_watering true (Valve_init 0)))
  = Ok [x01; x00; x0a; x00; x0a].
Proof.
  apply (manual_setting_bytes_layout
           (set_manual_minutes 10 (set_is_watering true (Valve_init 0)))).
  - cbn. lia.
  - reflexivity.
  - reflexivity.
Defined.

(** C3 as stated fails on a valve whose minutes do not fit 16 bits, which the
    setter of [manual_watering_minutes] allows: [struct.pack] raises. *)
Lemma manual_setting_bytes_counterexample :
  _manual_setting_bytes (set_manual_minutes 65536 (Valve_init 0))
  = Raise StructError.
Proof. reflexivity. Qed.

Lemma update_state_settings_short_witness :
  fst (update_state "settings" "states" 0 (PyBytes [x01; x00]) "settings"
         (Valve_init 0))
  = Raise StructError
  /\ manual_watering_minutes
       (snd (update_state "settings" "states" 0 (PyBytes [x01; x00]) "settings"
               (Valve_init 0)))
     = manual_watering_minutes (Valve_init 0).
Proof.
  apply (update_state_settings_short "settings" "states" 0 (Valve_init 0)
           [x01; x00]).
  - cbn. lia.
  - cbn. lia.
Defined.

(** C4 as stated fails on a 3-byte buffer for valve 0: shorter than 5 bytes,
    yet [update_state] returns and overwrites both fields.  On a 1-byte
    buffer it raises after it has overwritten the flag. *)
Lemma update_state_settings_short_counterexample :
  update_state "settings" "states" 0 (PyBytes [x01; x00; x05]) "settings"
    (Valve_init 0)
  = (Ok tt, set_manual_minutes 5 (set_is_watering true (Valve_init 0)))
  /\ update_state "settings" "states" 0 (PyBytes [x01]) "settings"
       (Valve_init 0)
     = (Raise StructError, set_is_watering true (Valve_init 0)).
Proof. split; reflexivity. Qed.

(** ** Zone accessors *)

(** C7.  [zone1] is always the valve in slot 0.  For a valve count [v],
    [zone2] is the valve in slot 1 when [v > 1] and [None] otherwise; [zone3]
    is the valve in slot 2 when [v > 2]; [zone4] is the valve in slot 3 under
    that same condition [v > 2]. *)
Theorem zone_accessors (d : Device) (v0 v1 v2 v3 : Valve) :
  _valves d = [v0; v1; v2; v3] ->
  zone1 d = Ok (Some v0)
  /\ forall v : Z,
      _valve_count d = Some v ->
      zone2 d = Ok (if v >? 1 then Some v1 else None)
      /\ zone3 d = Ok (if v >? 2 then Some v2 else None)
      /\ zone4 d = Ok (if v >? 2 then Some v3 else None).
Proof.
  intros Hv. unfold zone1, zone2, zone3, zone4, zone_if, py_nth.
  rewrite Hv. split; [reflexivity|].
  intros v ->. cbn [attr nth_error].
  repeat split; destruct (v >? 1), (v >? 2); reflexivity.
Qed.

Lemma zone_accessors_witness :
  let d := set_valve_count 1 (Device_init (mkBLEDevice "AA:BB" 6)) in
  zone1 d = Ok (Some (Valve_init 0))
  /\ zone2 d = Ok None /\ zone3 d = Ok None /\ zone4 d = Ok None.
Proof.
  intros d.
  destruct (zone_accessors d (Valve_init 0) (Valve_init 1) (Valve_init 2)
              (Valve_init 3) eq_refl) as [H1 H].
  split; [exact H1|]. exact (H 1 eq_refl).
Defined.

(** C10.  Indexing the device with a string other than the four zone names
    returns [None] and never raises; with a zone name it gives exactly what
    the accessor of that name gives. *)
Theorem getitem_zones (d : Device) :
  (forall key : string,
      key <> "zone1" -> key <> "zone2" -> key <> "zone3" -> key <> "zone4" ->
      getitem d key = Ok None)
  /\ getitem d "zone1" = zone1 d
  /\ getitem d "zone2" = zone2 d
  /\ getitem d "zone3" = zone3 d
  /\ getitem d "zone4" = zone4 d.
Proof.
  split; [|repeat split; reflexivity].
  intros key H1 H2 H3 H4. unfold getitem.
  destruct (String.eqb_spec key "zone1"); [contradiction|].
  destruct (String.eqb_spec key "zone2"); [contradiction|].
  destruct (String.eqb_spec key "zone3"); [contradiction|].
  destruct (String.eqb_spec key "zone4"); [contradiction|].
  reflexivity.
Qed.

Lemma getitem_zones_witness :
  getitem (Device_init (mkBLEDevice "AA:BB" 6)) "battery" = Ok None.
Proof.
  apply (proj1 (getitem_zones (Device_init (mkBLEDevice "AA:BB" 6))));
    discriminate.
Defined.

(** ** Reading the model *)

Lemma decode_utf8_ascii (bs : list byte) :
  Forall (fun b => (Byte.to_N b < 128)%N) bs ->
  Codec.decode_utf8 bs = Ok (map Byte.to_N bs).
Proof.
  induction 1 as [|b bs Hb _ IH]; [reflexivity|].
  cbn [Codec.decode_utf8 map].
  destruct (N.ltb_spec (Byte.to_N b) 128); [|lia].
  now rewrite IH.
Qed.

Lemma nth_error_map_to_N (bs : list byte) (n : nat) (b : byte) :
  nth_error bs n = Some b ->
  nth_error (map Byte.to_N bs) n = Some (Byte.to_N b).
Proof. intros H. now rewrite nth_error_map, H. Qed.

Lemma int_of_slice_digit (u : N -> option Z) (c : N) :
  (48 <= c <= 57)%N -> Codec.int_of_slice u (Some c) = Ok (Z.of_N c - 48).
Proof.
  intros H. unfold Codec.int_of_slice.
  destruct (N.leb_spec 48 c); [|lia]. destruct (N.leb_spec c 57); [|lia].
  cbn [andb]. f_equal. lia.
Qed.

(** Unfold the monad and the field accesses, as far as the outside's
    answers are known. *)
Ltac run_py :=
  cbv beta iota zeta delta
    [bind ret raise get modify call try_except_BleakError is_BleakError
     await on_device set_lock the_connection with_connection_lock attr];
  cbn [fst snd device connection_lock_locked outside log
       answer link_dropped after].

Section DeviceFacts.

Context {T : Type} {O : Outside T}.
Variable imports : Imports.

(** C6.  A device that is not connected calls [connect]; the transport
    connects and the manufacturer characteristic answers with an ASCII
    payload whose byte 6 is a digit.  Then [connect] returns, the model is
    bytes 0 to 4 as characters and the valve count is the value of the digit
    at byte 6.  For the payload 111110400 that is model 11111 and 4 valves. *)
Theorem connect_reads_model (w : World T) (retry_attempts : Z)
    (c : BleakClient) (payload : list byte) (digit : byte)
    (d1 d2 : bool) (o1 o2 : T) :
  _is_connected (device w) = false ->
  connection_lock_locked w = false ->
  establish_connection (_ble_device (device w)) (_mac (device w))
                       retry_attempts (outside w)
  = mkAwaited (Ok c) d1 o1 ->
  read_gatt_char c (MANUFACTURER_UUID imports) o1
  = mkAwaited (Ok payload) d2 o2 ->
  Forall (fun b => (Byte.to_N b < 128)%N) payload ->
  nth_error payload 6 = Some digit ->
  (48 <= Byte.to_N digit <= 57)%N ->
  let r := connect imports retry_attempts w in
  fst r = Ok tt
  /\ _model (device (snd r)) = Some (map Byte.to_N (firstn 5 payload))
  /\ _valve_count (device (snd r)) = Some (Z.of_N (Byte.to_N digit) - 48)
  /\ _is_connected (device (snd r)) = negb d2
  /\ (payload = [x31; x31; x31; x31; x31; x30; x34; x30; x30] ->
      _model (device (snd r)) = Some (str_of_string "11111")
      /\ _valve_count (device (snd r)) = Some 4).
Proof.
  intros Hc Hl He Hr Hascii Hd Hdigit r.
  assert (E : r = (Ok tt,
                   mkWorld
                     (set_valve_count (Z.of_N (Byte.to_N digit) - 48)
                        (set_model (map Byte.to_N (firstn 5 payload))
                           ((if d2 then disconnected_callback else id)
                              (set_is_connected true
                                 (set_connection c
                                    ((if d1 then disconnected_callback
                                      else id) (device w)))))))
                     false o2
                     (log w ++ [io_establish retry_attempts]
                            ++ [io_read c (MANUFACTURER_UUID imports)]))).
  { subst r. destruct w as [d l o lg]. cbn in Hc, Hl, He. subst l.
    unfold connect. run_py. rewrite Hc. cbn [orb].
    unfold _read_model, in_device, store_model. run_py. rewrite He. run_py.
    cbn [set_connection set_is_connected _connection].
    run_py. rewrite Hr. run_py.
    rewrite (decode_utf8_ascii payload Hascii).
    rewrite (nth_error_map_to_N payload 6 digit Hd).
    rewrite int_of_slice_digit by exact Hdigit.
    run_py.
    rewrite <- firstn_map, <- app_assoc.
    destruct d1, d2; reflexivity. }
  rewrite E. cbn [fst snd device].
  split; [reflexivity|]. split; [reflexivity|]. split; [reflexivity|].
  split; [destruct d1, d2; reflexivity|].
  intros ->. cbn in Hd. injection Hd as <-. split; reflexivity.
Qed.



(** C5, at its failing input.  The device is connected and the settings read
    fails (with [e], a [BleakError] say) while the battery read succeeds.
    [gather] hands the exception back as a value, the first valve is asked to
    unpack it, and [fetch_state] raises [TypeError]: that is neither the
    transport error, nor caught by [except BleakError], so it reaches the
    caller whether the device is still marked connected or not. *)
Theorem fetch_state_failed_read (w : World T) (c : BleakClient)
    (v0 v1 v2 v3 : Valve) (bat : list byte) (p : Z) (e : exn)
    (r3 : result (list byte)) (d1 d2 d3 : bool) (o1 o2 o3 : T) :
  _is_connected (device w) = true ->
  _connection (device w) = Some c ->
  _valves (device w) = [v0; v1; v2; v3] ->
  BATTERY_UUID imports <> VALVE_MANUAL_SETTINGS_UUID imports ->
  BATTERY_UUID imports <> VALVE_MANUAL_STATES_UUID imports ->
  read_gatt_char c (BATTERY_UUID imports) (outside w)
  = mkAwaited (Ok bat) d1 o1 ->
  read_gatt_char c (VALVE_MANUAL_SETTINGS_UUID imports) o1
  = mkAwaited (Raise e) d2 o2 ->
  read_gatt_char c (VALVE_MANUAL_STATES_UUID imports) o2
  = mkAwaited r3 d3 o3 ->
  parse_battery_value imports (PyBytes bat) = Ok p ->
  let r := fetch_state imports w in
  fst r = Raise TypeError
  /\ _is_connected (device (snd r)) = negb (d1 || d2 || d3).
Proof.
  intros Hc Hconn Hv Hbs Hbt R1 R2 R3 Hp r. subst r.
  destruct w as [d l o lg]. cbn [device outside] in *.
  destruct d as [bt ble cn ic mac md vc vs]. cbn in Hc, Hconn, Hv. subst.
  apply String.eqb_neq in Hbs, Hbt.
  assert (Hsb : String.eqb (VALVE_MANUAL_SETTINGS_UUID imports)
                           (BATTERY_UUID imports) = false)
    by (now rewrite String.eqb_sym).
  unfold fetch_state, _read, valve_slots. run_py.
  cbn [_is_connected negb map gather_return_exceptions _connection].
  run_py. cbn [_connection disconnected_callback set_is_connected].
  rewrite R1. run_py.
  replace (_connection (if d1 then _ else _)) with (Some c)
    by (destruct d1; reflexivity).
  rewrite R2. run_py.
  replace (_connection (if d2 then _ else _)) with (Some c)
    by (destruct d1, d2; reflexivity).
  rewrite R3. run_py.
  cbn [List.length seq combine for_each py_nth nth_error].
  run_py. rewrite String.eqb_refl, Hp. run_py.
  unfold on_valve, update_state. run_py.
  cbn [list_index]. rewrite !String.eqb_refl, Hbs, Hbt, Hsb.
  destruct d1, d2, d3, r3; cbn; split; reflexivity.
Qed.

End DeviceFacts.

(** *** Concrete runs on the scripted outside *)

Lemma connect_reads_model_witness :
  let r := connect sample_imports 4 (fresh_world (sample_mock (Ok []) false)) in
  fst r = Ok tt
  /\ _model (device (snd r)) = Some (str_of_string "11111")
  /\ _valve_count (device (snd r)) = Some 4.
Proof.
  intros r.
  destruct (connect_reads_model sample_imports
              (fresh_world (sample_mock (Ok []) false)) 4 7%nat
              manufacturer_4_valves x34 false false
              (sample_mock (Ok []) false) (sample_mock (Ok []) false))
    as (H1 & _ & _ & _ & H5).
  - reflexivity.
  - reflexivity.
  - reflexivity.
  - reflexivity.
  - repeat (constructor; try reflexivity).
  - reflexivity.
  - cbn. lia.
  - split; [exact H1|]. apply H5. reflexivity.
Defined.


(** The settings read fails with [BleakError] and the link drops while it
    is awaited: the device ends up marked disconnected, and [fetch_state]
    raises [TypeError] all the same. *)
Lemma fetch_state_failed_read_witness :
  let r := fetch_state sample_imports
             (connected_world (sample_mock (Raise BleakError) true)) in
  fst r = Raise TypeError /\ _is_connected (device (snd r)) = false.
Proof.
  apply (fetch_state_failed_read sample_imports
           (connected_world (sample_mock (Raise BleakError) true)) 7%nat
           (Valve_init 0) (Valve_init 1) (Valve_init 2) (Valve_init 3)
           [x02; x85] 30 BleakError (Ok (repeat x00 20)) false true false
           (sample_mock (Raise BleakError) true)
           (sample_mock (Raise BleakError) true)
           (sample_mock (Raise BleakError) true));
    try reflexivity; discriminate.
Defined.

(** ** Several callers of [connect] *)

Lemma prepend_raise (c : N) (r : result pystr) (e : exn) :
  Codec.prepend c r = Raise e -> r = Raise e.
Proof. destruct r; cbn; congruence. Qed.

(** The decoder has one way to fail. *)
Lemma decode_utf8_raises (n : nat) (bs : list byte) (e : exn) :
  (List.length bs <= n)%nat ->
  Codec.decode_utf8 bs = Raise e -> e = UnicodeDecodeError.
Proof.
  revert bs. induction n as [|n IH]; intros bs Hl H.
  - destruct bs; [discriminate|cbn in Hl; lia].
  - destruct bs as [|b0 t0]; [discriminate|].
    cbn [Codec.decode_utf8] in H. cbn [List.length] in Hl.
    repeat match type of H with
           | (if ?c then _ else _) = _ => destruct c
           | match ?l with [] => _ | _ :: _ => _ end = _ =>
               destruct l; cbn [List.length] in Hl
           | Codec.prepend _ _ = Raise _ =>
               apply prepend_raise in H; apply IH in H; [exact H|lia]
           | Raise _ = Raise _ => injection H; auto
           end.
Qed.


Lemma store_model_not_BleakError (imports : Imports) (data : list byte)
    (d : Device) (e : exn) :
  fst (store_model imports data d) = Raise e -> is_BleakError e = false.
Proof.
  unfold store_model, bind, call, modify.
  destruct (Codec.decode_utf8 data) as [s|e'] eqn:D.
  - unfold Codec.int_of_slice.
    destruct (nth_error s 6) as [c|]; cbn [fst].
    + destruct (_ && _); [discriminate|].
      destruct (c <? 128)%N; [intros [= <-]; reflexivity|].
      destruct (unicode_decimal imports c); [discriminate|].
      intros [= <-]; reflexivity.
    + intros [= <-]; reflexivity.
  - cbn [fst]. intros [= <-].
    now rewrite (decode_utf8_raises _ data e' (le_n _) D).
Qed.

(** The machine and the method agree on a single caller: same device
    afterwards, same result, one connection attempt. *)
Lemma single_caller_agrees {T : Type} {O : Outside T} (imports : Imports)
    (retry_attempts : Z) (w : World T) :
  _is_connected (device w) = false ->
  connection_lock_locked w = false ->
  Tasks.run imports (Tasks.init (device w) 1)
            (single_caller_events imports retry_attempts w)
  = Some (Tasks.mkState (device (snd (connect imports retry_attempts w)))
                        false [] false
                        [Tasks.Finished (fst (connect imports retry_attempts w))]
                        1).
Proof.
  intros Hc Hl. destruct w as [d l o lg]. cbn [device connection_lock_locked] in *.
  subst l. unfold single_caller_events, connect, _read_model, in_device.
  run_py. rewrite Hc. cbn [orb].
  change (outside (mkWorld d false o lg)) with o.
  destruct (establish_connection (_ble_device d) (_mac d) retry_attempts o)
    as [[c|e] d1 o1]; run_py.
  - cbn [_connection set_connection set_is_connected]. run_py.
    destruct (read_gatt_char c (MANUFACTURER_UUID imports) o1)
      as [[data|e] d2 o2]; run_py.
    + destruct d1, d2; cbn -[store_model];
        unfold Tasks.enter, Tasks.init; cbn -[store_model];
        rewrite Hc; cbn -[store_model];
        unfold disconnected_callback, set_is_connected, set_connection;
        cbn -[store_model];
        match goal with
        | |- context [store_model imports data ?x] =>
            destruct (store_model imports data x) as [[[]|e] d'] eqn:S
        end; cbn;
        try match type of S with
            | store_model _ _ ?x = (Raise ?e', _) =>
                pose proof (store_model_not_BleakError imports data x e') as P;
                rewrite S in P; specialize (P eq_refl);
                destruct e'; try discriminate P
            end;
        reflexivity.
    + destruct d1, d2, e; cbn; unfold Tasks.enter, Tasks.init; cbn;
        rewrite Hc; reflexivity.
  - destruct d1, e; cbn; unfold Tasks.enter, Tasks.init; cbn;
      rewrite Hc; reflexivity.
Qed.



Section TaskFacts.

Import Tasks.
Variable imports : Imports.








(** X15.  The connection lock is only ever held inside the global lock,
    whatever the transport does and however the callers interleave: a
    caller that has the global lock never finds [_connection_lock] held, so
    the second half of the guard in [connect] never decides anything. *)
Lemma connection_lock_inside_global (es : list event) (st st' : State) :
  (connection_locked st = true -> global_locked st = true) ->
  run imports st es = Some st' ->
  connection_locked st' = true -> global_locked st' = true.
Proof.
  revert st. induction es as [|e es IH]; intros st I Hr; cbn in Hr.
  - now injection Hr as <-.
  - destruct (step imports st e) as [st1|] eqn:S; [|discriminate].
    apply (IH st1); [|exact Hr]. clear IH Hr.
    assert (E : forall t s, global_locked s = false ->
                  (connection_locked s = true -> global_locked s = true) ->
                  connection_locked (enter t s) = true ->
                  global_locked (enter t s) = true).
    { intros t s G Is. unfold enter.
      destruct (_is_connected (dev s) || connection_locked s); cbn; auto.
      intros C. rewrite Is in G by exact C. discriminate. }
    destruct e as [t|t r|t r|]; cbn [step] in S.
    + destruct (nth_error (tasks st) t) as [[| | | |]|]; try discriminate.
      * destruct (global_locked st) eqn:G, (global_waiters st);
          injection S as <-; cbn; auto.
        apply E; auto. intros C. rewrite G. exact (I C).
      * destruct (global_locked st) eqn:G; [discriminate|].
        destruct (global_waiters st) as [|t' ws]; [discriminate|].
        destruct (Nat.eqb t' t); [|discriminate]. injection S as <-.
        apply E; cbn; auto.
    + destruct (nth_error (tasks st) t) as [[| | | |]|]; try discriminate.
      destruct r as [c|e]; injection S as <-; cbn; auto.
      destruct (is_BleakError e); cbn; discriminate.
    + destruct (nth_error (tasks st) t) as [[| | | |]|]; try discriminate.
      destruct r as [data|e].
      * destruct (store_model imports data (dev st)) as [[[]|e] d].
        -- injection S as <-. cbn. discriminate.
        -- injection S as <-. cbn. destruct (is_BleakError e); cbn;
             discriminate.
      * injection S as <-. cbn. destruct (is_BleakError e); cbn; discriminate.
    + injection S as <-. cbn. exact I.
Qed.


End TaskFacts.

(** *** Four callers *)


Lemma connection_lock_inside_global_witness :
  exists st : Tasks.State,
    Tasks.run sample_imports
              (Tasks.init (Device_init (mkBLEDevice "AA:BB" 6)) 4)
              [Tasks.Run 0; Tasks.Run 1] = Some st
    /\ Tasks.connection_locked st = true
    /\ Tasks.global_locked st = true.
Proof.
  assert (R : exists st : Tasks.State,
             Tasks.run sample_imports
                       (Tasks.init (Device_init (mkBLEDevice "AA:BB" 6)) 4)
                       [Tasks.Run 0; Tasks.Run 1] = Some st
             /\ Tasks.connection_locked st = true)
    by (eexists; split; reflexivity).
  destruct R as (st & R & C). exists st.
  split; [exact R|]. split; [exact C|].
  apply (connection_lock_inside_global sample_imports
           [Tasks.Run 0; Tasks.Run 1]
           (Tasks.init (Device_init (mkBLEDevice "AA:BB" 6)) 4) st).
  - discriminate.
  - exact R.
  - exact C.
Defined.

(** C9, at its failing input.  Four callers start together on a device that
    is not connected and every attempt ends in [BleakError].  The three
    extra callers do not return without effect: they wait for the global
    lock, find the device still disconnected and the connection lock free,
    and each makes an attempt of its own.  The transport's connect is
    invoked four times, not once. *)
Theorem connect_callers_failed_attempts :
  exists st : Tasks.State,
    Tasks.run sample_imports
              (Tasks.init (Device_init (mkBLEDevice "AA:BB" 6)) 4)
              failing_schedule = Some st
    /\ forallb Tasks.is_finished (Tasks.tasks st) = true
    /\ Tasks.establish_calls st = 4%nat.
Proof. eexists. split; [reflexivity|]. split; reflexivity. Qed.

(** ** The repository's tests, replayed *)

Example test_zone_update_state :
  update_state "settings" "states" 0 (PyBytes zone_manual_setting_bytes)
               "settings" (Valve_init 0)
  = (Ok tt, set_manual_minutes 5 (set_is_watering true (Valve_init 0))).
Proof. reflexivity. Qed.

Example test_zone_defaults :
  is_watering (Valve_init 0) = false
  /\ manual_watering_minutes (Valve_init 0) = 20.
Proof. split; reflexivity. Qed.

Example test_2_valve_device :
  let d := set_valve_count 2 (Device_init (mkBLEDevice "AA:BB" 6)) in
  zone2 d = Ok (Some (Valve_init 1)) /\ zone3 d = Ok None
  /\ zone4 d = Ok None.
Proof. repeat split; reflexivity. Qed.

Example test_fetch :
  let r := (connect sample_imports 4 ;; fetch_state sample_imports)
             (fresh_world fetch_mock) in
  fst r = Ok tt
  /\ _battery (device (snd r)) = 30
  /\ _valve_count (device (snd r)) = Some 4
  /\ _valves (device (snd r))
     = [mkValve 0 false 0 4294967195; mkValve 1 false 0 0;
        mkValve 2 false 0 0; mkValve 3 false 0 0].
Proof. vm_compute. repeat split; reflexivity. Qed.

(** * Further properties of the module *)

(** ** [connect], case by case *)

Section ConnectFacts.

Context {T : Type} {O : Outside T}.
Variable imports : Imports.

(** Every way through [connect] for a caller that gets past the guard. *)
Lemma connect_unfold (w : World T) (retry_attempts : Z) :
  _is_connected (device w) = false ->
  connection_lock_locked w = false ->
  connect imports retry_attempts w =
  let a1 := establish_connection (_ble_device (device w)) (_mac (device w))
                                 retry_attempts (outside w) in
  let d0 := if link_dropped a1 then disconnected_callback (device w)
            else device w in
  let lg1 := log w ++ [io_establish retry_attempts] in
  match answer a1 with
  | Raise e =>
      if is_BleakError e
      then (Ok tt, mkWorld (set_is_connected false d0) false (after a1) lg1)
      else (Raise e, mkWorld d0 false (after a1) lg1)
  | Ok c =>
      let a2 := read_gatt_char c (MANUFACTURER_UUID imports) (after a1) in
      let d1 := set_is_connected true (set_connection c d0) in
      let d2 := if link_dropped a2 then disconnected_callback d1 else d1 in
      let lg2 := lg1 ++ [io_read c (MANUFACTURER_UUID imports)] in
      match answer a2 with
      | Raise e =>
          if is_BleakError e
          then (Ok tt, mkWorld (set_is_connected false d2) false (after a2) lg2)
          else (Raise e, mkWorld d2 false (after a2) lg2)
      | Ok data =>
          (fst (store_model imports data d2),
           mkWorld (snd (store_model imports data d2)) false (after a2) lg2)
      end
  end.
Proof.
  intros Hc Hl. destruct w as [d l o lg].
  cbn [device connection_lock_locked outside log] in *. subst l.
  unfold connect, _read_model, in_device. run_py. rewrite Hc. cbn [orb].
  change (outside (mkWorld d false o lg)) with o.
  destruct (establish_connection (_ble_device d) (_mac d) retry_attempts o)
    as [[c|e] b1 o1]; run_py.
  - cbn [_connection set_connection set_is_connected]. run_py.
    destruct (read_gatt_char c (MANUFACTURER_UUID imports) o1)
      as [[data|e] b2 o2]; run_py.
    + match goal with
      | |- context [store_model imports data ?x] =>
          destruct (store_model imports data x) as [[[]|e] d'] eqn:S
      end; cbn [fst snd]; run_py; try reflexivity.
      match type of S with
      | store_model _ _ ?x = _ =>
          pose proof (store_model_not_BleakError imports data x e) as P
      end.
      rewrite S in P. specialize (P eq_refl).
      destruct e; try discriminate P; reflexivity.
    + destruct e; reflexivity.
  - destruct e; reflexivity.
Qed.

(** What [store_model] can do to a device: at most the model and the valve
    count change. *)
Lemma store_model_cases (data : list byte) (d : Device) :
  (exists e, store_model imports data d = (Raise e, d))
  \/ (exists s e, Codec.decode_utf8 data = Ok s
                  /\ store_model imports data d
                     = (Raise e, set_model (firstn 5 s) d))
  \/ (exists s n, Codec.decode_utf8 data = Ok s
                  /\ store_model imports data d
                     = (Ok tt, set_valve_count n (set_model (firstn 5 s) d))).
Proof.
  unfold store_model, bind, call, modify.
  destruct (Codec.decode_utf8 data) as [s|e]; [|left; eauto].
  destruct (Codec.int_of_slice _ _) as [n|e]; right; [right|left]; eauto.
Qed.

(** X1.  Whatever the transport does, [connect] never raises [BleakError]:
    a failed attempt and a failed model read are swallowed, and nothing else
    in it can raise one. *)
Theorem connect_never_raises_BleakError (w : World T) (retry_attempts : Z) :
  fst (connect imports retry_attempts w) <> Raise BleakError.
Proof.
  destruct (_is_connected (device w) || connection_lock_locked w) eqn:G.
  - unfold connect, bind, get. rewrite G. discriminate.
  - apply orb_false_iff in G. destruct G as [Hc Hl].
    rewrite connect_unfold by assumption. cbv zeta.
    destruct (answer (establish_connection _ _ _ _)) as [c|e].
    + destruct (answer (read_gatt_char _ _ _)) as [data|e].
      * cbn [fst]. intros E.
        apply store_model_not_BleakError in E. discriminate.
      * destruct e; cbn; discriminate.
    + destruct e; cbn; discriminate.
Qed.

(** X2.  [connect] leaves the connection lock as it found it, on every
    path: returned, swallowed error or propagated error. *)
Theorem connect_restores_connection_lock (w : World T) (retry_attempts : Z) :
  connection_lock_locked (snd (connect imports retry_attempts w))
  = connection_lock_locked w.
Proof.
  destruct (_is_connected (device w) || connection_lock_locked w) eqn:G.
  - unfold connect, bind, get. rewrite G. reflexivity.
  - apply orb_false_iff in G. destruct G as [Hc Hl].
    rewrite connect_unfold by assumption. cbv zeta. rewrite Hl.
    destruct (answer (establish_connection _ _ _ _)) as [c|e].
    + destruct (answer (read_gatt_char _ _ _)) as [data|e];
        [reflexivity|destruct (is_BleakError e); reflexivity].
    + destruct (is_BleakError e); reflexivity.
Qed.

(** X3.  When the connection attempt fails with [BleakError], [connect]
    returns normally, the device is exactly as it was before the call
    (still marked disconnected, every other attribute untouched), and the
    attempt is the only transport call made. *)
Theorem connect_failed_attempt (w : World T) (retry_attempts : Z)
    (b : bool) (o1 : T) :
  _is_connected (device w) = false ->
  connection_lock_locked w = false ->
  establish_connection (_ble_device (device w)) (_mac (device w))
                       retry_attempts (outside w)
  = mkAwaited (Raise BleakError) b o1 ->
  connect imports retry_attempts w
  = (Ok tt, mkWorld (device w) false o1
                    (log w ++ [io_establish retry_attempts])).
Proof.
  intros Hc Hl He. rewrite connect_unfold by assumption. cbv zeta.
  rewrite He. cbn [answer link_dropped after is_BleakError].
  destruct w as [d l o lg]. cbn [device log] in *.
  destruct d; cbn in Hc; subst. destruct b; reflexivity.
Qed.

(** X4.  When the manufacturer payload is ASCII but has no digit at byte 6
    (it is shorter than 7 bytes, or holds something else there), [connect]
    raises [ValueError] to its caller.  By then the model is set from the
    first five bytes, the valve count keeps its old value and the
    connection lock is released; the device is marked connected exactly
    when the link did not drop during the manufacturer read. *)
Theorem connect_malformed_payload (w : World T) (retry_attempts : Z)
    (c : BleakClient) (payload : list byte) (b1 b2 : bool) (o1 o2 : T) :
  _is_connected (device w) = false ->
  connection_lock_locked w = false ->
  establish_connection (_ble_device (device w)) (_mac (device w))
                       retry_attempts (outside w)
  = mkAwaited (Ok c) b1 o1 ->
  read_gatt_char c (MANUFACTURER_UUID imports) o1
  = mkAwaited (Ok payload) b2 o2 ->
  Forall (fun b => (Byte.to_N b < 128)%N) payload ->
  (forall b, nth_error payload 6 = Some b ->
             ~ (48 <= Byte.to_N b <= 57)%N) ->
  let r := connect imports retry_attempts w in
  fst r = Raise ValueError
  /\ _model (device (snd r)) = Some (map Byte.to_N (firstn 5 payload))
  /\ _valve_count (device (snd r)) = _valve_count (device w)
  /\ _is_connected (device (snd r)) = negb b2
  /\ connection_lock_locked (snd r) = false.
Proof.
  intros Hc Hl He Hr Hascii Hno r. subst r.
  rewrite connect_unfold by assumption. cbv zeta.
  rewrite He. cbn [answer link_dropped after]. rewrite Hr.
  cbn [answer link_dropped after].
  unfold store_model, bind, call, modify.
  rewrite (decode_utf8_ascii payload Hascii).
  assert (I : Codec.int_of_slice (unicode_decimal imports)
                (nth_error (map Byte.to_N payload) 6) = Raise ValueError).
  { rewrite nth_error_map. destruct (nth_error payload 6) as [b|] eqn:E;
      [|reflexivity].
    cbn [option_map Codec.int_of_slice].
    specialize (Hno b eq_refl).
    assert (Hb : (Byte.to_N b < 128)%N).
    { apply nth_error_In in E. rewrite Forall_forall in Hascii. auto. }
    destruct (N.leb_spec 48 (Byte.to_N b)), (N.leb_spec (Byte.to_N b) 57);
      cbn [andb]; try lia;
      destruct (N.ltb_spec (Byte.to_N b) 128); try lia; reflexivity. }
  rewrite I. cbn [fst snd device connection_lock_locked].
  rewrite firstn_map.
  repeat split; destruct b1, b2; reflexivity.
Qed.

(** X5.  A device that was not connected and that [connect] returns from
    marked connected has its connection object, its model and its valve
    count: none of the accessors that read them can raise
    [AttributeError] on it. *)
Theorem connect_connected_is_complete (w : World T) (retry_attempts : Z) :
  _is_connected (device w) = false ->
  fst (connect imports retry_attempts w) = Ok tt ->
  _is_connected (device (snd (connect imports retry_attempts w))) = true ->
  _connection (device (snd (connect imports retry_attempts w))) <> None
  /\ _model (device (snd (connect imports retry_attempts w))) <> None
  /\ _valve_count (device (snd (connect imports retry_attempts w))) <> None.
Proof.
  intros Hc.
  destruct (connection_lock_locked w) eqn:Hl.
  - unfold connect, bind, get. rewrite Hc, Hl. cbn [orb ret fst snd].
    congruence.
  - rewrite connect_unfold by assumption. cbv zeta.
    destruct (establish_connection _ _ _ _) as [[c|e] b1 o1];
      cbn [answer link_dropped after].
    + destruct (read_gatt_char _ _ _) as [[data|e] b2 o2];
        cbn [answer link_dropped after].
      * match goal with
        | |- context [store_model imports data ?x] =>
            destruct (store_model_cases data x)
              as [(e & S)|[(s & e & _ & S)|(s & n & _ & S)]];
              rewrite S
        end; cbn [fst snd device]; try discriminate.
        intros _ _. destruct b1, b2; cbn; repeat split; discriminate.
      * destruct e; cbn; intros; discriminate.
    + destruct e; cbn; intros; discriminate.
Qed.

End ConnectFacts.

(** ** What the methods keep *)

Section KeepsMonad.

Context {S : Type}.
Variable P : S -> Prop.

Lemma keeps_ret {A} (a : A) : keeps P (ret a).
Proof. intros s H. exact H. Qed.

Lemma keeps_raise {A} (e : exn) : keeps P (raise (A := A) e).
Proof. intros s H. exact H. Qed.

Lemma keeps_call {A} (r : result A) : keeps P (call r).
Proof. intros s H. exact H. Qed.

Lemma keeps_get : keeps P get.
Proof. intros s H. exact H. Qed.

Lemma keeps_modify (f : S -> S) :
  (forall s, P s -> P (f s)) -> keeps P (modify f).
Proof. intros Hf s H. apply Hf, H. Qed.

Lemma keeps_bind {A B} (m : M S A) (k : A -> M S B) :
  keeps P m -> (forall a, keeps P (k a)) -> keeps P (bind m k).
Proof.
  intros Hm Hk s H. unfold bind. specialize (Hm s H).
  destruct (m s) as [[a|e] s']; cbn [snd] in *; [apply Hk, Hm|exact Hm].
Qed.

Lemma keeps_try {A} (body : M S A) (handler : exn -> M S A) :
  keeps P body -> (forall e, keeps P (handler e)) ->
  keeps P (try_except_BleakError body handler).
Proof.
  intros Hb Hh s H. unfold try_except_BleakError. specialize (Hb s H).
  destruct (body s) as [[a|e] s']; cbn [snd] in *; [exact Hb|].
  destruct (is_BleakError e); [apply Hh, Hb|exact Hb].
Qed.

Lemma keeps_for_each {A} (xs : list A) (body : A -> M S unit) :
  (forall x, keeps P (body x)) -> keeps P (for_each xs body).
Proof.
  intros Hb. induction xs as [|x xs IH]; cbn [for_each].
  - apply keeps_ret.
  - apply keeps_bind; auto.
Qed.

End KeepsMonad.

(** One step of a proof that a method keeps a property: through the
    sequencing, the branches and the loops, down to the calls that touch the
    state. *)
Ltac keeps_step :=
  match goal with
  | |- keeps _ (bind _ _) => apply keeps_bind; [|intros]
  | |- keeps _ (ret _) => apply keeps_ret
  | |- keeps _ (raise _) => apply keeps_raise
  | |- keeps _ (call _) => apply keeps_call
  | |- keeps _ get => apply keeps_get
  | |- keeps _ (try_except_BleakError _ _) => apply keeps_try; [|intros]
  | |- keeps _ (for_each _ _) => apply keeps_for_each; intros
  | |- keeps _ (if ?b then _ else _) => destruct b
  | |- keeps _ (let (_, _) := ?p in _) => destruct p
  | |- keeps _ (match ?x with Some _ => _ | None => _ end) => destruct x
  end.

Section KeepsWorld.

Context {T : Type} {O : Outside T}.
Variable imports : Imports.
Variable P : World T -> Prop.

(** The transport calls [P] can live with. *)
Variable allowed : io -> bool.

Hypothesis P_await :
  forall (w : World T) (b : bool) (o : T) (e : io),
    allowed e = true -> P w ->
    P (mkWorld (if b then disconnected_callback (device w) else device w)
               (connection_lock_locked w) o (log w ++ [e])).

Hypothesis P_battery :
  forall (w : World T) (b : Z),
    P w -> P (mkWorld (set_battery b (device w)) (connection_lock_locked w)
                      (outside w) (log w)).

Hypothesis P_valve :
  forall (w : World T) (k : nat) (v : Valve) (shift : Z) (raw : pyobj)
         (uuid : string),
    nth_error (_valves (device w)) k = Some v -> P w ->
    P (mkWorld
         (set_valves
            (list_set (_valves (device w)) k
               (snd (update_state (VALVE_MANUAL_SETTINGS_UUID imports)
                                  (VALVE_MANUAL_STATES_UUID imports)
                                  shift raw uuid v)))
            (device w))
         (connection_lock_locked w) (outside w) (log w)).

Hypothesis P_connect : forall r, keeps P (connect imports r).

Lemma keeps_await {A} (e : io) (op : T -> awaited A T) :
  allowed e = true -> keeps P (await e op).
Proof. intros He w H. unfold await. cbn [snd]. now apply P_await. Qed.

Lemma keeps_the_connection : keeps P the_connection.
Proof. unfold the_connection. repeat keeps_step. Qed.

Lemma keeps_read (uuid : string) :
  (forall c, allowed (io_read c uuid) = true) -> keeps P (_read uuid).
Proof.
  intros Ha. unfold _read. keeps_step; [apply keeps_the_connection|].
  now apply keeps_await.
Qed.

Lemma keeps_gather (coros : list (M (World T) (list byte))) :
  Forall (keeps P) coros -> keeps P (gather_return_exceptions coros).
Proof.
  induction 1 as [|c cs Hc _ IH]; cbn [gather_return_exceptions].
  - apply keeps_ret.
  - intros w H. specialize (Hc w H). destruct (c w) as [r w'].
    cbn [snd] in Hc. apply keeps_bind; [exact IH| |exact Hc].
    intros. apply keeps_ret.
Qed.

Lemma keeps_disconnect :
  (forall c, allowed (io_disconnect c) = true) -> keeps P disconnect.
Proof.
  intros Ha. unfold disconnect. keeps_step; [apply keeps_the_connection|].
  now apply keeps_await.
Qed.

Lemma keeps_fetch_state :
  (forall c uuid, allowed (io_read c uuid) = true) ->
  keeps P (fetch_state imports).
Proof.
  intros Ha. unfold fetch_state, valve_slots.
  keeps_step; [keeps_step|]. keeps_step.
  { keeps_step; [apply P_connect|keeps_step]. }
  keeps_step.
  - keeps_step.
    + apply keeps_gather. repeat constructor; apply keeps_read; auto.
    + keeps_step. keeps_step. repeat keeps_step.
      * apply keeps_modify. intros w. apply P_battery.
      * intros w H. unfold on_valve.
        match goal with
        | |- context [nth_error (_valves (device w)) ?k] =>
            destruct (nth_error (_valves (device w)) k) as [v|] eqn:E;
              [|exact H];
            match goal with
            | |- context [update_state ?s ?t ?z ?raw ?u v] =>
                pose proof (P_valve w k v z raw u E H) as Q;
                destruct (update_state s t z raw u v) as [r v']
            end
        end.
        exact Q.
  - repeat keeps_step.
Qed.

Lemma keeps_push_state :
  (forall c h data r, allowed (io_write c h data r) = true) ->
  keeps P (push_state imports).
Proof.
  intros Ha. unfold push_state, push_settings, push_updated_at, valve_bytes.
  keeps_step; [keeps_step|]. keeps_step.
  { keeps_step; [apply P_connect|keeps_step]. }
  keeps_step.
  - keeps_step; [apply keeps_the_connection|]. keeps_step; [keeps_step|].
    keeps_step; [|keeps_step].
    keeps_step; [apply keeps_the_connection|].
    repeat (keeps_step; [repeat keeps_step|]).
    now apply keeps_await.
  - keeps_step; [apply keeps_the_connection|]. keeps_step; [keeps_step|].
    keeps_step; [|keeps_step].
    keeps_step; [apply keeps_the_connection|].
    keeps_step; [keeps_step|]. now apply keeps_await.
Qed.

End KeepsWorld.

Section Frames.

Context {T : Type} {O : Outside T}.
Variable imports : Imports.

(** [connect] touches the connection, the connected mark, the model and the
    valve count, and nothing else; it reads and never writes. *)
Lemma connect_frame (w : World T) (retry_attempts : Z) :
  let w' := snd (connect imports retry_attempts w) in
  _battery (device w') = _battery (device w)
  /\ _ble_device (device w') = _ble_device (device w)
  /\ _mac (device w') = _mac (device w)
  /\ _valves (device w') = _valves (device w)
  /\ (exists l, log w' = log w ++ l
                /\ forallb (fun e => negb (is_write e)) l = true)
  /\ ((_is_connected (device w) = true -> _connection (device w) <> None) ->
      _is_connected (device w') = true -> _connection (device w') <> None).
Proof.
  cbv zeta.
  destruct (_is_connected (device w) || connection_lock_locked w) eqn:G.
  - unfold connect, bind, get. rewrite G. cbn [ret snd].
    repeat split; auto. exists []. now rewrite app_nil_r.
  - apply orb_false_iff in G. destruct G as [Hc Hl].
    rewrite connect_unfold by assumption. cbv zeta.
    destruct (establish_connection _ _ _ _) as [[c|e] b1 o1];
      cbn [answer link_dropped after].
    + destruct (read_gatt_char _ _ _) as [[data|e] b2 o2];
        cbn [answer link_dropped after].
      * match goal with
        | |- context [store_model imports data ?x] =>
            destruct (store_model_cases imports data x)
              as [(e & S)|[(s & e & _ & S)|(s & n & _ & S)]];
              rewrite S
        end; cbn [fst snd device log];
          (repeat split;
           [destruct b1, b2; reflexivity ..
           | eexists; split; [rewrite <- app_assoc; reflexivity|reflexivity]
           | intros _ _; destruct b1, b2; discriminate]).
      * destruct (is_BleakError e); cbn [fst snd device log];
          (repeat split;
           [destruct b1, b2; reflexivity ..
           | eexists; split; [rewrite <- app_assoc; reflexivity|reflexivity]
           | intros _ _; destruct b1, b2; discriminate]).
    + destruct (is_BleakError e); cbn [fst snd device log];
        (repeat split;
         [destruct b1; reflexivity ..
         | eexists; split; [reflexivity|reflexivity]
         | intros I; destruct b1; cbn; try discriminate; auto]).
Qed.

End Frames.

(** ** Every state a program can reach *)

Lemma update_state_id (s t : string) (shift : Z) (raw : pyobj) (uuid : string)
    (v : Valve) :
  _id (snd (update_state s t shift raw uuid v)) = _id v.
Proof.
  unfold update_state, bind, get, call, modify.
  destruct (String.eqb uuid s).
  - destruct (Struct.unpack_from_bool raw _); [|reflexivity].
    destruct (Struct.unpack_from_H raw _); reflexivity.
  - destruct (String.eqb uuid t); [|reflexivity].
    destruct (Struct.unpack_from_I raw _); reflexivity.
Qed.

Lemma map_id_list_set (l : list Valve) (k : nat) (v v' : Valve) :
  nth_error l k = Some v -> _id v' = _id v ->
  map _id (list_set l k v') = map _id l.
Proof.
  revert k. induction l as [|y l IH]; intros [|k] H E; cbn in *;
    try discriminate.
  - injection H as ->. now rewrite E.
  - now rewrite (IH k).
Qed.

Section Reachable.

Context {T : Type} {O : Outside T}.
Variable imports : Imports.
Variable address0 : string.

Let sound (w : World T) : Prop :=
  map _id (_valves (device w)) = [0; 1; 2; 3]
  /\ connection_lock_locked w = false
  /\ _mac (device w) = address0
  /\ (_is_connected (device w) = true -> _connection (device w) <> None).

Lemma sound_await (w : World T) (b : bool) (o : T) (e : io) :
  sound w ->
  sound (mkWorld (if b then disconnected_callback (device w) else device w)
                 (connection_lock_locked w) o (log w ++ [e])).
Proof.
  unfold sound. intros (H1 & H2 & H3 & H4). cbn [device connection_lock_locked].
  destruct b; cbn; repeat split; auto; discriminate.
Qed.

Lemma sound_valve (w : World T) (k : nat) (v v' : Valve) :
  nth_error (_valves (device w)) k = Some v -> _id v' = _id v ->
  sound w ->
  sound (mkWorld (set_valves (list_set (_valves (device w)) k v') (device w))
                 (connection_lock_locked w) (outside w) (log w)).
Proof.
  unfold sound. intros E Hid (H1 & H2 & H3 & H4).
  cbn [device connection_lock_locked set_valves _valves _mac _is_connected
         _connection].
  rewrite (map_id_list_set _ k v v' E Hid). auto.
Qed.

Lemma sound_connect (r : Z) : keeps sound (connect imports r).
Proof.
  unfold sound. intros w (H1 & H2 & H3 & H4).
  pose proof (connect_frame imports w r) as F. cbv zeta in F.
  destruct F as (_ & _ & Fm & Fv & _ & Fc).
  rewrite Fv, Fm, connect_restores_connection_lock. auto.
Qed.

Lemma sound_op (o : op) (w : World T) : sound w -> sound (run_op imports o w).
Proof.
  intros H. destruct o; cbn [run_op].
  - now apply sound_connect.
  - apply (keeps_disconnect sound (fun _ => true)); auto.
    intros; now apply sound_await.
  - apply (keeps_fetch_state imports sound (fun _ => true)); auto.
    all: try exact sound_connect.
    all: try (intros; now apply sound_await).
    all: try (intros w0 k v shift raw uuid E S0;
              apply (sound_valve w0 k v); auto; apply update_state_id).
    all: unfold sound; intros w0 b (H1 & H2 & H3 & H4); cbn; auto.
  - apply (keeps_push_state imports sound (fun _ => true)); auto.
    all: try exact sound_connect.
    all: intros; now apply sound_await.
  - unfold on_valve.
    destruct (nth_error (_valves (device w)) slot) as [v|] eqn:E; [|exact H].
    cbn [modify snd]. now apply (sound_valve w slot v).
  - unfold on_valve.
    destruct (nth_error (_valves (device w)) slot) as [v|] eqn:E; [|exact H].
    cbn [modify snd]. now apply (sound_valve w slot v).
  - unfold sound in *. destruct H as (H1 & H2 & H3 & H4). cbn. auto.
  - unfold sound in *. destruct H as (H1 & H2 & H3 & H4). cbn. auto.
  - unfold sound in *. destruct H as (H1 & H2 & H3 & H4). cbn.
    repeat split; auto; discriminate.
Qed.

End Reachable.

(** X6.  Start from a freshly constructed device and let the program and
    the transport do anything, in any order: connect, disconnect, fetch,
    push, set a valve's fields or the valve count, swap the BLE device, drop
    the link.  The device always has exactly four valves, numbered 0 to 3 in
    order; the connection lock is free between operations; the MAC is the
    address it was constructed with; and a device marked connected has a
    connection object. *)
Theorem reachable_device_shape {T : Type} {O : Outside T} (imports : Imports)
    (ble_device : BLEDevice) (o : T) (os : list op) :
  let w := run_ops imports os (mkWorld (Device_init ble_device) false o []) in
  map _id (_valves (device w)) = [0; 1; 2; 3]
  /\ connection_lock_locked w = false
  /\ mac (device w) = address ble_device
  /\ (is_connected (device w) = true -> _connection (device w) <> None).
Proof.
  cbv zeta. unfold run_ops.
  assert (G : forall w,
             (map _id (_valves (device w)) = [0; 1; 2; 3]
              /\ connection_lock_locked w = false
              /\ _mac (device w) = address ble_device
              /\ (_is_connected (device w) = true ->
                  _connection (device w) <> None)) ->
             map _id (_valves (device (fold_left (fun w o => run_op imports o w)
                                                 os w))) = [0; 1; 2; 3]
             /\ connection_lock_locked
                  (fold_left (fun w o => run_op imports o w) os w) = false
             /\ _mac (device (fold_left (fun w o => run_op imports o w) os w))
                = address ble_device
             /\ (_is_connected
                   (device (fold_left (fun w o => run_op imports o w) os w))
                 = true ->
                 _connection
                   (device (fold_left (fun w o => run_op imports o w) os w))
                 <> None)).
  { induction os as [|x os IH]; intros w H; cbn [fold_left]; [exact H|].
    apply IH. now apply (sound_op imports (address ble_device)). }
  apply G. cbn. repeat split; auto. discriminate.
Qed.

(** *** Concrete runs of [connect] *)

Lemma connect_failed_attempt_witness :
  connect sample_imports 4 (fresh_world refusing_mock)
  = (Ok tt, mkWorld (Device_init (mkBLEDevice "AA:BB" 6)) false refusing_mock
                    [io_establish 4]).
Proof.
  apply (connect_failed_attempt sample_imports (fresh_world refusing_mock) 4
           false refusing_mock); reflexivity.
Defined.

Lemma connect_malformed_payload_witness :
  let r := connect sample_imports 4
             (fresh_world (manufacturer_mock [x31; x31; x31; x31])) in
  fst r = Raise ValueError
  /\ _model (device (snd r)) = Some (str_of_string "1111")
  /\ _valve_count (device (snd r)) = None
  /\ _is_connected (device (snd r)) = true
  /\ connection_lock_locked (snd r) = false.
Proof.
  apply (connect_malformed_payload sample_imports
           (fresh_world (manufacturer_mock [x31; x31; x31; x31])) 4 7%nat
           [x31; x31; x31; x31] false false
           (manufacturer_mock [x31; x31; x31; x31])
           (manufacturer_mock [x31; x31; x31; x31]));
    try reflexivity.
  - repeat (constructor; try reflexivity).
  - discriminate.
Defined.

Lemma connect_connected_is_complete_witness :
  let w := fresh_world (manufacturer_mock manufacturer_4_valves) in
  _connection (device (snd (connect sample_imports 4 w))) <> None
  /\ _model (device (snd (connect sample_imports 4 w))) <> None
  /\ _valve_count (device (snd (connect sample_imports 4 w))) <> None.
Proof.
  apply (connect_connected_is_complete sample_imports
           (fresh_world (manufacturer_mock manufacturer_4_valves)) 4);
    reflexivity.
Defined.

(** ** What fetching and pushing never do *)

Section NeverDoes.

Context {T : Type} {O : Outside T}.
Variable imports : Imports.

(** X7.  [fetch_state] never writes to the device: whatever the reads
    answer and whether or not it has to connect first, no transport call it
    adds to the log is a write. *)
Theorem fetch_state_never_writes (w : World T) :
  exists l : list io,
    log (snd (fetch_state imports w)) = log w ++ l
    /\ forallb (fun e => negb (is_write e)) l = true.
Proof.
  apply (keeps_fetch_state imports
           (fun w' => exists l, log w' = log w ++ l
                                /\ forallb (fun e => negb (is_write e)) l = true)
           (fun e => negb (is_write e))).
  - intros w0 b o e He (l & E & F). exists (l ++ [e]). cbn [log].
    rewrite E, app_assoc. split; [reflexivity|].
    rewrite forallb_app, F. cbn. now rewrite He.
  - intros w0 b H. exact H.
  - intros w0 k v shift raw uuid _ H. exact H.
  - intros r w0 (l & E & F).
    destruct (connect_frame imports w0 r) as (_ & _ & _ & _ & (l' & E' & F') & _).
    exists (l ++ l'). rewrite E', E, app_assoc. split; [reflexivity|].
    now rewrite forallb_app, F, F'.
  - reflexivity.
  - exists []. now rewrite app_nil_r.
Qed.

(** X8.  [push_state] never changes what it sends: the valves and the
    battery level are the same objects with the same values after the call,
    whatever the transport answers and whether or not it has to connect
    first. *)
Theorem push_state_keeps_valves (w : World T) :
  _valves (device (snd (push_state imports w))) = _valves (device w)
  /\ _battery (device (snd (push_state imports w))) = _battery (device w).
Proof.
  apply (keeps_push_state imports
           (fun w' => _valves (device w') = _valves (device w)
                      /\ _battery (device w') = _battery (device w))
           (fun _ => true)).
  - intros w0 b o e _ H. cbn [device]. destruct b; exact H.
  - intros r w0 [Hv Hb].
    destruct (connect_frame imports w0 r) as (Fb & _ & _ & Fv & _).
    rewrite Fv, Fb. auto.
  - reflexivity.
  - auto.
Qed.

Lemma guarded_handler {A} (m : M (World T) A) (body : M (World T) unit)
    (w : World T) :
  fst (m w) <> Raise BleakError ->
  let r := (m ;;
            try_except_BleakError body
              (fun error =>
                 w' <- get ;;
                 if _is_connected (device w') then raise error else ret tt)) w
  in
  fst r = Raise BleakError -> _is_connected (device (snd r)) = true.
Proof.
  intros NC. cbv zeta.
  unfold bind, try_except_BleakError, get, raise, ret.
  destruct (m w) as [[a|e] w1]; cbn [fst snd] in *.
  - destruct (body w1) as [[[]|e] w2]; cbn [fst snd]; try discriminate.
    destruct (is_BleakError e) eqn:B; cbn [fst snd].
    + destruct (_is_connected (device w2)) eqn:C; cbn [fst snd];
        intros E; [exact C|discriminate E].
    + intros [= ->]. discriminate.
  - intros [= ->]. contradiction.
Qed.

(** X9.  On a device that is marked disconnected when [fetch_state] ends,
    [fetch_state] has not raised [BleakError]: it returned, or it raised
    something else. *)
Theorem fetch_state_no_BleakError_when_disconnected (w : World T) :
  _is_connected (device (snd (fetch_state imports w))) = false ->
  fst (fetch_state imports w) <> Raise BleakError.
Proof.
  intros D E.
  assert (C : _is_connected (device (snd (fetch_state imports w))) = true).
  { revert E.
    apply (guarded_handler
             (if negb (_is_connected (device w)) then connect imports 1
              else ret tt)).
    destruct (negb (_is_connected (device w))).
    - apply connect_never_raises_BleakError.
    - discriminate. }
  congruence.
Qed.

End NeverDoes.

Lemma fetch_state_no_BleakError_when_disconnected_witness :
  fst (fetch_state sample_imports
         (connected_world (sample_mock (Raise BleakError) true)))
  <> Raise BleakError.
Proof.
  apply (fetch_state_no_BleakError_when_disconnected sample_imports
           (connected_world (sample_mock (Raise BleakError) true))).
  reflexivity.
Defined.

(** ** [push_state], error paths *)

Section PushFacts.

Context {T : Type} {O : Outside T}.
Variable imports : Imports.

(** The settings block when the characteristic is there and the four slots
    encode. *)
Lemma push_settings_present (w : World T) (c : BleakClient) (handle : Z)
    (v0 v1 v2 v3 : Valve) (e0 e1 e2 e3 : list byte) :
  _connection (device w) = Some c ->
  get_characteristic c (VALVE_MANUAL_SETTINGS_UUID imports) (outside w)
  = Some handle ->
  _valves (device w) = [v0; v1; v2; v3] ->
  _manual_setting_bytes v0 = Ok e0 ->
  _manual_setting_bytes v1 = Ok e1 ->
  _manual_setting_bytes v2 = Ok e2 ->
  _manual_setting_bytes v3 = Ok e3 ->
  push_settings imports w
  = await (io_write c handle (e0 ++ e1 ++ e2 ++ e3) true)
          (write_gatt_char c handle (e0 ++ e1 ++ e2 ++ e3) true) w.
Proof.
  intros Hconn Hh Hv H0 H1 H2 H3. destruct w as [d l o lg].
  cbn [device outside] in *.
  unfold push_settings, valve_bytes. run_py.
  repeat (first [rewrite Hconn | rewrite Hh | rewrite Hv
                | rewrite H0 | rewrite H1 | rewrite H2 | rewrite H3];
          run_py; cbn [py_nth nth_error]).
  reflexivity.
Qed.

(** X10.  [push_state] has no handler of its own: when the write to the
    settings characteristic raises, that exception reaches the caller, and
    the updated-at characteristic is not written. *)
Theorem push_state_write_error (w : World T) (c : BleakClient) (handle : Z)
    (v0 v1 v2 v3 : Valve) (e0 e1 e2 e3 : list byte) (e : exn) (b : bool)
    (o1 : T) :
  _is_connected (device w) = true ->
  _connection (device w) = Some c ->
  get_characteristic c (VALVE_MANUAL_SETTINGS_UUID imports) (outside w)
  = Some handle ->
  _valves (device w) = [v0; v1; v2; v3] ->
  _manual_setting_bytes v0 = Ok e0 ->
  _manual_setting_bytes v1 = Ok e1 ->
  _manual_setting_bytes v2 = Ok e2 ->
  _manual_setting_bytes v3 = Ok e3 ->
  write_gatt_char c handle (e0 ++ e1 ++ e2 ++ e3) true (outside w)
  = mkAwaited (Raise e) b o1 ->
  fst (push_state imports w) = Raise e
  /\ log (snd (push_state imports w))
     = log w ++ [io_write c handle (e0 ++ e1 ++ e2 ++ e3) true].
Proof.
  intros Hc Hconn Hh Hv H0 H1 H2 H3 Hw.
  assert (E : push_state imports w
              = (push_settings imports ;; push_updated_at imports) w).
  { unfold push_state, bind at 1 2, get. rewrite Hc. reflexivity. }
  rewrite E. unfold bind.
  rewrite (push_settings_present w c handle v0 v1 v2 v3 e0 e1 e2 e3)
    by assumption.
  unfold await. rewrite Hw. cbn. auto.
Qed.

(** X11.  A device that has never been connected and whose connection
    attempt fails cannot push: [push_state] raises [AttributeError] when it
    reaches for the connection, after the one attempt and without writing
    anything. *)
Theorem push_state_never_connected (w : World T) (b : bool) (o1 : T) :
  _is_connected (device w) = false ->
  connection_lock_locked w = false ->
  _connection (device w) = None ->
  establish_connection (_ble_device (device w)) (_mac (device w)) 1 (outside w)
  = mkAwaited (Raise BleakError) b o1 ->
  push_state imports w
  = (Raise AttributeError,
     mkWorld (device w) false o1 (log w ++ [io_establish 1])).
Proof.
  intros Hc Hl Hconn He.
  unfold push_state, bind at 1 2, get. rewrite Hc. cbn [negb].
  rewrite (connect_failed_attempt imports w 1 b o1) by assumption.
  unfold push_settings, the_connection, bind, get, call.
  cbn [device]. rewrite Hconn. reflexivity.
Qed.

(** X12.  A device that was connected before, lost the link and cannot
    reconnect still pushes: after the failed attempt [push_state] writes the
    settings through the old connection object. *)
Theorem push_state_stale_connection (w : World T) (c : BleakClient)
    (handle : Z) (v0 v1 v2 v3 : Valve) (e0 e1 e2 e3 : list byte) (b : bool)
    (o1 : T) :
  _is_connected (device w) = false ->
  connection_lock_locked w = false ->
  _connection (device w) = Some c ->
  establish_connection (_ble_device (device w)) (_mac (device w)) 1 (outside w)
  = mkAwaited (Raise BleakError) b o1 ->
  get_characteristic c (VALVE_MANUAL_SETTINGS_UUID imports) o1 = Some handle ->
  _valves (device w) = [v0; v1; v2; v3] ->
  _manual_setting_bytes v0 = Ok e0 ->
  _manual_setting_bytes v1 = Ok e1 ->
  _manual_setting_bytes v2 = Ok e2 ->
  _manual_setting_bytes v3 = Ok e3 ->
  exists rest : list io,
    log (snd (push_state imports w))
    = log w ++ io_establish 1
            :: io_write c handle (e0 ++ e1 ++ e2 ++ e3) true :: rest.
Proof.
  intros Hc Hl Hconn He Hh Hv H0 H1 H2 H3.
  unfold push_state, bind at 1 2, get. rewrite Hc. cbn [negb].
  rewrite (connect_failed_attempt imports w 1 b o1) by assumption.
  unfold bind at 1.
  rewrite (push_settings_present _ c handle v0 v1 v2 v3 e0 e1 e2 e3)
    by assumption.
  unfold await at 1. cbn [device outside log connection_lock_locked].
  destruct (answer (write_gatt_char c handle _ true o1)) as [[]|e].
  - match goal with
    | |- context [push_updated_at imports ?w1] =>
        assert (K : keeps (fun w' => exists l, log w' = log w1 ++ l)
                          (push_updated_at imports))
    end.
    { unfold push_updated_at. keeps_step.
      - unfold the_connection. repeat keeps_step.
      - keeps_step; [keeps_step|]. keeps_step; [|keeps_step].
        keeps_step; [unfold the_connection; repeat keeps_step|].
        keeps_step; [keeps_step|].
        intros w0 (l & E). unfold await. cbn [snd log]. rewrite E.
        eexists. rewrite <- app_assoc. reflexivity. }
    match goal with
    | |- context [push_updated_at imports ?w1] =>
        destruct (K w1) as (l & E); [exists []; now rewrite app_nil_r|]
    end.
    exists l. rewrite E. cbn [log]. now rewrite <- !app_assoc.
  - exists []. cbn [snd log]. now rewrite <- app_assoc.
Qed.

End PushFacts.

(** *** Concrete runs of [push_state] *)

Lemma push_state_write_error_witness :
  fst (push_state sample_imports broken_world) = Raise BleakError
  /\ log (snd (push_state sample_imports broken_world))
     = [io_write 7%nat 5
          (default_slot ++ default_slot ++ default_slot ++ default_slot) true].
Proof.
  apply (push_state_write_error sample_imports broken_world 7%nat 5
           (Valve_init 0) (Valve_init 1) (Valve_init 2) (Valve_init 3)
           default_slot default_slot default_slot default_slot
           BleakError true (mkBrokenWrites (sample_mock (Ok []) false)));
    reflexivity.
Defined.

Lemma push_state_never_connected_witness :
  push_state sample_imports (fresh_world refusing_mock)
  = (Raise AttributeError,
     mkWorld (Device_init (mkBLEDevice "AA:BB" 6)) false refusing_mock
             [io_establish 1]).
Proof.
  apply (push_state_never_connected sample_imports
           (fresh_world refusing_mock) false refusing_mock); reflexivity.
Defined.

Lemma push_state_stale_connection_witness :
  exists rest : list io,
    log (snd (push_state sample_imports (dropped_world stale_mock)))
    = [] ++ io_establish 1
         :: io_write 7%nat 5
              (default_slot ++ default_slot ++ default_slot ++ default_slot)
              true
         :: rest.
Proof.
  apply (push_state_stale_connection sample_imports
           (dropped_world stale_mock) 7%nat 5
           (Valve_init 0) (Valve_init 1) (Valve_init 2) (Valve_init 3)
           default_slot default_slot default_slot default_slot
           false stale_mock); reflexivity.
Defined.

(** ** The updated-at stamp *)

(** The updated-at block when the characteristic is there: the stamp is
    packed before the write is made. *)
Lemma push_updated_at_payload {T : Type} {O : Outside T} (imports : Imports)
    (w : World T) (c : BleakClient) (handle : Z) :
  _connection (device w) = Some c ->
  get_characteristic c (UPDATED_AT_UUID imports) (outside w) = Some handle ->
  (0 <= date_get_timestamp (outside w) < 2 ^ 32 ->
   exists stamp : list byte,
     List.length stamp = 4%nat
     /\ Struct.be_uint stamp = date_get_timestamp (outside w)
     /\ push_updated_at imports w
        = await (io_write c handle stamp true)
                (write_gatt_char c handle stamp true) w)
  /\ (~ 0 <= date_get_timestamp (outside w) < 2 ^ 32 ->
      push_updated_at imports w = (Raise StructError, w)).
Proof.
  intros Hconn Hh. destruct w as [d l o lg]. cbn [device outside] in *.
  split.
  - intros R. exists (Struct.be_bytes 4 (date_get_timestamp o)).
    split; [apply StructFacts.length_be_bytes|].
    split; [apply StructFacts.be_uint_be_bytes; exact R|].
    unfold push_updated_at. run_py. rewrite Hconn. run_py. rewrite Hh.
    run_py. rewrite Hconn. run_py.
    unfold Struct.pack_I, Struct.pack_uint.
    change (256 ^ Z.of_nat 4) with (2 ^ 32).
    destruct (Z.leb_spec 0 (date_get_timestamp o)); [|lia].
    destruct (Z.ltb_spec (date_get_timestamp o) (2 ^ 32)); [|lia].
    reflexivity.
  - intros R. unfold push_updated_at. run_py. rewrite Hconn. run_py.
    rewrite Hh. run_py. rewrite Hconn. run_py.
    unfold Struct.pack_I, Struct.pack_uint.
    change (256 ^ Z.of_nat 4) with (2 ^ 32).
    destruct (Z.leb_spec 0 (date_get_timestamp o));
      destruct (Z.ltb_spec (date_get_timestamp o) (2 ^ 32));
      try reflexivity; lia.
Qed.

(** X13.  On a connected device whose service table has the updated-at
    characteristic and not the settings one, [push_state] makes one
    transport call: a write to the updated-at handle of the current
    timestamp as four bytes, most significant first, and it ends as that
    write ends.  This needs the timestamp to fit 32 bits: with one that
    does not, [push_state] raises [struct.error] and nothing is written. *)
Theorem push_state_updated_at_stamp {T : Type} {O : Outside T}
    (imports : Imports) (w : World T) (c : BleakClient) (handle : Z) :
  _is_connected (device w) = true ->
  _connection (device w) = Some c ->
  get_characteristic c (VALVE_MANUAL_SETTINGS_UUID imports) (outside w)
  = None ->
  get_characteristic c (UPDATED_AT_UUID imports) (outside w) = Some handle ->
  (0 <= date_get_timestamp (outside w) < 2 ^ 32 ->
   exists stamp : list byte,
     List.length stamp = 4%nat
     /\ Struct.be_uint stamp = date_get_timestamp (outside w)
     /\ fst (push_state imports w)
        = answer (write_gatt_char c handle stamp true (outside w))
     /\ log (snd (push_state imports w))
        = log w ++ [io_write c handle stamp true])
  /\ (~ 0 <= date_get_timestamp (outside w) < 2 ^ 32 ->
      push_state imports w = (Raise StructError, w)).
Proof.
  intros Hc Hconn Hs Hh.
  assert (E : push_state imports w = push_updated_at imports w).
  { destruct w as [d l o lg].
    cbn [device outside connection_lock_locked log] in *.
    assert (P : push_settings imports (mkWorld d l o lg)
                = (Ok tt, mkWorld d l o lg)).
    { unfold push_settings. run_py. rewrite Hconn. run_py. rewrite Hs.
      reflexivity. }
    unfold push_state. run_py. rewrite Hc. cbn [negb].
    change ((push_settings imports ;; push_updated_at imports)
              (mkWorld d l o lg)
            = push_updated_at imports (mkWorld d l o lg)).
    unfold bind at 1. rewrite P. reflexivity. }
  rewrite E.
  destruct (push_updated_at_payload imports w c handle Hconn Hh) as [In Out].
  split.
  - intros R. destruct (In R) as (stamp & L & V & W).
    exists stamp. split; [exact L|]. split; [exact V|].
    rewrite W. unfold await. cbn [fst snd log]. split; reflexivity.
  - exact Out.
Qed.

Lemma push_state_updated_at_stamp_witness :
  exists stamp : list byte,
    List.length stamp = 4%nat
    /\ Struct.be_uint stamp = 200
    /\ fst (push_state sample_imports (connected_world stamp_mock)) = Ok tt
    /\ log (snd (push_state sample_imports (connected_world stamp_mock)))
       = [] ++ [io_write 7%nat 9 stamp true].
Proof.
  assert (Hs : get_characteristic 7%nat
                 (VALVE_MANUAL_SETTINGS_UUID sample_imports)
                 (outside (connected_world stamp_mock)) = None)
    by reflexivity.
  assert (Hh : get_characteristic 7%nat (UPDATED_AT_UUID sample_imports)
                 (outside (connected_world stamp_mock)) = Some 9)
    by reflexivity.
  apply (proj1 (push_state_updated_at_stamp sample_imports
                  (connected_world stamp_mock) 7%nat 9
                  eq_refl eq_refl Hs Hh)).
  cbn. lia.
Defined.
